(** * AcademIQ: a shallow embedding of [app.py]

    The development follows the layout of the program:
    - [Store]: the two SQLite tables of [init_db] and the four persistence
      functions [add_user], [get_user], [update_progress], [get_user_progress];
    - [Catalog]: [load_course_data];
    - [Ranker]: [recommend_courses] with the cosine similarity it calls;
    - [App]: the parts of [main] that call the above (start-up, the
      Recommendations page, the Progress page).

    Conventions.  Python [None] results are [option]; exceptions are the
    [Raise] branch of [outcome].  SQLite [INTEGER] is [Z] (row ids are not
    capped at the 63-bit ceiling of SQLite), [TEXT] is [string], [REAL] is
    [Q] in the store and [R] in the ranker: floating point rounding is not
    modelled. *)

From Stdlib Require Import ZArith QArith List String Ascii Bool Lia.
From Stdlib Require Import Permutation Sorted Reals Lra.
From Stdlib Require OrderedTypeEx.
Import ListNotations.

Local Open Scope string_scope.
Local Open Scope Z_scope.

(** ** Exceptions *)

Inductive exn : Type :=
| IntegrityError      (* sqlite3.IntegrityError *)
| FileNotFoundError
| ValueError
| IndexError
| OtherException.

Inductive outcome (A : Type) : Type :=
| Ok (a : A)
| Raise (e : exn).

Arguments Ok {A} a.
Arguments Raise {A} e.

Definition bind {A B} (m : outcome A) (k : A -> outcome B) : outcome B :=
  match m with
  | Ok a => k a
  | Raise e => Raise e
  end.

Notation "x <- m ;; k" := (bind m (fun x => k))
  (at level 61, m at next level, right associativity).

(** ** The persistence layer *)

Module Store.

(** Rows of [users] and [progress], columns in the order of the
    [CREATE TABLE] statements. *)
Record user_row : Type := mk_user {
  user_id : Z;
  username : string;
  interests : string;
  goals : string;
  skill_level : string }.

Record progress_row : Type := mk_progress {
  progress_id : Z;
  p_user_id : Z;
  course_id : string;
  completion_status : Q }.

(** A connection is the content of [users_data.db]: both tables in rowid
    order, and for each the [sqlite_sequence] counter that AUTOINCREMENT
    keeps (the largest rowid ever handed out). *)
Record conn : Type := mk_conn {
  users : list user_row;
  users_seq : Z;
  progress : list progress_row;
  progress_seq : Z }.

Definition empty_db : conn := mk_conn [] 0 [] 0.

(** [init_db]: both statements are [CREATE TABLE IF NOT EXISTS], so an
    existing file is returned as it is and a missing one starts empty. *)
Definition init_db (users_data : option conn) : conn :=
  match users_data with
  | Some c => c
  | None => empty_db
  end.

Definition max_rowid (ids : list Z) : Z := fold_right Z.max 0 ids.

(** AUTOINCREMENT: one more than the largest rowid that is or ever was in
    the table. *)
Definition next_rowid (seq : Z) (ids : list Z) : Z :=
  Z.max seq (max_rowid ids) + 1.

(** [INSERT INTO users (username, interests, goals, skill_level)]: the
    [UNIQUE] constraint on [username] aborts the statement. *)
Definition insert_user (c : conn) (name ints gls lvl : string)
  : outcome (conn * Z) :=
  if existsb (fun r => String.eqb (username r) name) (users c)
  then Raise IntegrityError
  else
    let rowid := next_rowid (users_seq c) (map user_id (users c)) in
    Ok (mk_conn (users c ++ [mk_user rowid name ints gls lvl]) rowid
                (progress c) (progress_seq c),
        rowid).

(** [add_user]: returns [c.lastrowid], or [None] when the insert raised
    [sqlite3.IntegrityError] (nothing is committed in that case). *)
Definition add_user (c : conn) (name ints gls lvl : string)
  : conn * option Z :=
  match insert_user c name ints gls lvl with
  | Ok (c', rowid) => (c', Some rowid)
  | Raise _ => (c, None)
  end.

(** [get_user]: [SELECT * FROM users WHERE username = ?], [fetchone]. *)
Definition get_user (c : conn) (name : string) : option user_row :=
  find (fun r => String.eqb (username r) name) (users c).

(** [INSERT OR REPLACE INTO progress (user_id, course_id,
    completion_status)].  REPLACE removes the rows that clash with the new
    one on a uniqueness constraint; the table of [init_db] has one such
    constraint, the primary key [progress_id], and the statement does not
    supply it. *)
Definition insert_or_replace_progress
  (c : conn) (uid : Z) (cid : string) (v : Q) : conn :=
  let rowid := next_rowid (progress_seq c) (map progress_id (progress c)) in
  let kept :=
    filter (fun r => negb (Z.eqb (progress_id r) rowid)) (progress c) in
  mk_conn (users c) (users_seq c)
          (kept ++ [mk_progress rowid uid cid v]) rowid.

(** [update_progress] *)
Definition update_progress (c : conn) (uid : Z) (cid : string) (v : Q)
  : conn :=
  insert_or_replace_progress c uid cid v.

(** [get_user_progress]: [SELECT course_id, completion_status FROM
    progress WHERE user_id = ?], [fetchall]. *)
Definition get_user_progress (c : conn) (uid : Z) : list (string * Q) :=
  map (fun r => (course_id r, completion_status r))
      (filter (fun r => Z.eqb (p_user_id r) uid) (progress c)).

(** The records of the logical key [(user_id, course_id)]. *)
Definition records_for (c : conn) (uid : Z) (cid : string)
  : list progress_row :=
  filter (fun r => Z.eqb (p_user_id r) uid && String.eqb (course_id r) cid)
         (progress c).

(** The range of a completion fraction. *)
Definition completion_valid (r : progress_row) : Prop :=
  (0 <= completion_status r <= 1)%Q.

(** A run of persistence calls, as a session issues them. *)
Inductive call : Type :=
| AddUser (name ints gls lvl : string)
| UpdateProgress (uid : Z) (cid : string) (v : Q).

Definition exec (c : conn) (k : call) : conn :=
  match k with
  | AddUser n i g l => fst (add_user c n i g l)
  | UpdateProgress u cid v => update_progress c u cid v
  end.

Definition exec_all (c : conn) (ks : list call) : conn :=
  fold_left exec ks c.

End Store.

(** ** The course catalog *)

Module Catalog.

(** The columns the program names.  [T] is [string] for a line of the
    file and [cell] for a row of the frame. *)
Record fields (T : Type) : Type := mk_fields {
  course_id : T;
  title : T;
  Category : T;
  difficulty_level : T;
  skills_covered : T;
  prerequisites : T;
  youtube_links : T;
  Research_papers : T;
  Related_articles : T;
  text_books : T;
  Github_repository : T }.

Arguments mk_fields {T}.
Arguments course_id {T}.
Arguments title {T}.
Arguments Category {T}.
Arguments difficulty_level {T}.
Arguments skills_covered {T}.
Arguments prerequisites {T}.
Arguments youtube_links {T}.
Arguments Research_papers {T}.
Arguments Related_articles {T}.
Arguments text_books {T}.
Arguments Github_repository {T}.

(** A row: the named columns and the remaining columns of the file. *)
Record row_of (T : Type) : Type := mk_row {
  named : fields T;
  others : list T }.

Arguments mk_row {T}.
Arguments named {T}.
Arguments others {T}.

(** A cell of a frame: [None] is NaN, [Some s] is text.  The columns are
    taken to hold text (dtype [object]). *)
Definition cell : Type := option string.

Definition file_row : Type := row_of string.
Definition raw_row : Type := row_of cell.

(** The catalog file as [pd.read_csv] meets it; a field that the line
    leaves out is the empty string. *)
Inductive file : Type :=
| NoFile
| Unreadable
| Table (lines : list file_row).

(** The texts that pandas reads as NaN by default. *)
Definition STR_NA_VALUES : list string :=
  [""; "#N/A"; "#N/A N/A"; "#NA"; "-1.#IND"; "-1.#QNAN"; "-NaN"; "-nan";
   "1.#IND"; "1.#QNAN"; "<NA>"; "N/A"; "NA"; "NULL"; "NaN"; "None"; "n/a";
   "nan"; "null"].

Definition is_na_text (field : string) : bool :=
  existsb (String.eqb field) STR_NA_VALUES.

Definition read_cell (field : string) : cell :=
  if is_na_text field then None else Some field.

Definition map_fields {T U} (f : T -> U) (x : fields T) : fields U :=
  mk_fields (f (course_id x)) (f (title x)) (f (Category x))
            (f (difficulty_level x)) (f (skills_covered x))
            (f (prerequisites x)) (f (youtube_links x))
            (f (Research_papers x)) (f (Related_articles x))
            (f (text_books x)) (f (Github_repository x)).

Definition read_row (l : file_row) : raw_row :=
  mk_row (map_fields read_cell (named l)) (map read_cell (others l)).

(** [pd.read_csv(file_path, encoding='latin1')] *)
Definition read_csv (f : file) : outcome (list raw_row) :=
  match f with
  | NoFile => Raise FileNotFoundError
  | Unreadable => Raise OtherException
  | Table lines => Ok (map read_row lines)
  end.

(** A row of the frame that [load_course_data] returns: the row read from
    the file and its [features] column. *)
Record course : Type := mk_course {
  row : raw_row;
  features : string }.

Definition isna (c : cell) : bool :=
  match c with
  | None => true
  | Some _ => false
  end.

Definition all_cells (r : raw_row) : list cell :=
  let f := named r in
  [course_id f; title f; Category f; difficulty_level f; skills_covered f;
   prerequisites f; youtube_links f; Research_papers f; Related_articles f;
   text_books f; Github_repository f] ++ others r.

(** [subset=['course_id', 'title', 'Category', 'skills_covered',
    'prerequisites']] *)
Definition subset_cells (r : raw_row) : list cell :=
  let f := named r in
  [course_id f; title f; Category f; skills_covered f; prerequisites f].

(** The same five columns of a line of the file. *)
Definition required (l : file_row) : list string :=
  let f := named l in
  [course_id f; title f; Category f; skills_covered f; prerequisites f].

(** The lines with none of the five fields read as NaN. *)
Definition kept_lines (lines : list file_row) : list file_row :=
  filter (fun l => negb (existsb is_na_text (required l))) lines.

(** [df.dropna(how='all')] keeps the rows with a cell that is not NaN. *)
Definition dropna_all (rows : list raw_row) : list raw_row :=
  filter (fun r => negb (forallb isna (all_cells r))) rows.

(** [df.dropna(subset=[...])] keeps the rows with no NaN in the subset. *)
Definition dropna_subset (rows : list raw_row) : list raw_row :=
  filter (fun r => negb (existsb isna (subset_cells r))) rows.

(** How an f-string prints a cell. *)
Definition fmt (c : cell) : string :=
  match c with
  | Some s => s
  | None => "nan"
  end.

(** The lambda of [df.apply]. *)
Definition feature_text (x : raw_row) : string :=
  let f := named x in
  (fmt (title f) ++ " " ++ fmt (Category f) ++ " "
     ++ fmt (skills_covered f) ++ " " ++ fmt (prerequisites f))%string.

(** [load_course_data]: [None] after either [except] branch. *)
Definition load_course_data (file_path : file) : option (list course) :=
  match
    df <- read_csv file_path ;;
    let df := dropna_all df in
    let df := dropna_subset df in
    Ok (map (fun x => mk_course x (feature_text x)) df)
  with
  | Ok df => Some df
  | Raise FileNotFoundError => None
  | Raise _ => None
  end.

End Catalog.

(** ** Python built-ins the program uses *)

Module Py.

(** [str.isspace] on one character; a character is a code point below
    256, the range of the [latin1] decoding of the catalog. *)
Definition isspace (a : ascii) : bool :=
  let n := nat_of_ascii a in
  ((9 <=? n) && (n <=? 13) || (28 <=? n) && (n <=? 32)
   || (n =? 133) || (n =? 160))%nat.

Fixpoint lstrip (s : string) : string :=
  match s with
  | EmptyString => EmptyString
  | String a s' => if isspace a then lstrip s' else s
  end.

Fixpoint rstrip (s : string) : string :=
  match s with
  | EmptyString => EmptyString
  | String a s' =>
      match rstrip s' with
      | EmptyString => if isspace a then EmptyString else String a EmptyString
      | r => String a r
      end
  end.

(** [str.strip()] *)
Definition strip (s : string) : string := rstrip (lstrip s).

(** Truth value of a string: [not s] holds of the empty string only. *)
Definition falsy (s : string) : bool :=
  match s with
  | EmptyString => true
  | String _ _ => false
  end.

(** [list(enumerate(l))] *)
Definition enumerate {A} (l : list A) : list (nat * A) :=
  combine (seq 0 (List.length l)) l.

(** [l[0:stop]]: a negative [stop] counts from the end. *)
Definition slice_to {A} (l : list A) (stop : Z) : list A :=
  if stop <? 0
  then firstn (Z.to_nat (Z.max 0 (Z.of_nat (List.length l) + stop))) l
  else firstn (Z.to_nat stop) l.

(** [sorted(l, key=key, reverse=True)]: a stable sort into descending
    order of the keys; [ltb] is [<] on the keys.  [insert_desc x l] puts
    [x], which stood before the elements of [l], after the keys above its
    own and before its equals. *)
Section Sorted.
Context {A K : Type} (key : A -> K) (ltb : K -> K -> bool).

Fixpoint insert_desc (x : A) (l : list A) : list A :=
  match l with
  | [] => [x]
  | y :: l' =>
      if ltb (key x) (key y) then y :: insert_desc x l' else x :: l
  end.

Definition sorted_reverse (l : list A) : list A :=
  fold_right insert_desc [] l.
End Sorted.

End Py.

(** ** The recommendation engine *)

Module Ranker.
Import Catalog.
Local Open Scope R_scope.

Definition vector : Type := list R.

(** A term matrix, one row per document. *)
Definition matrix : Type := list vector.

(** A fitted [TfidfVectorizer]: what the program uses of it is
    [transform] on one text. *)
Record tfidf_model : Type := mk_model {
  transform : string -> vector }.

Fixpoint dot (u v : vector) : R :=
  match u, v with
  | x :: u', y :: v' => x * y + dot u' v'
  | _, _ => 0
  end.

Definition row_norm (u : vector) : R := sqrt (dot u u).

(** sklearn's [normalize]: a row of norm zero is left as it is. *)
Definition normalize (u : vector) : vector :=
  let n := row_norm u in
  let n := if Req_dec_T n 0 then 1 else n in
  map (fun x => x / n) u.

(** [cosine_similarity(X, Y)[0]] for a one-row [X]: the dot products of
    the normalized rows.  The input check raises [ValueError] for an [X]
    with no column, a [Y] with no row, and rows of [Y] of another width
    than [X]. *)
Definition cosine_similarity (X : vector) (Y : matrix) : outcome (list R) :=
  if Nat.eqb (List.length X) 0 || Nat.eqb (List.length Y) 0
  then Raise ValueError
  else if forallb (fun y => Nat.eqb (List.length y) (List.length X)) Y
  then Ok (map (fun y => dot (normalize X) (normalize y)) Y)
  else Raise ValueError.



Definition Rltb (a b : R) : bool := if Rlt_dec a b then true else false.

(** [dataframe.iloc[course_indices]] *)
Fixpoint iloc (dataframe : list course) (course_indices : list nat)
  : outcome (list course) :=
  match course_indices with
  | [] => Ok []
  | i :: rest =>
      match nth_error dataframe i with
      | Some c => cs <- iloc dataframe rest ;; Ok (c :: cs)
      | None => Raise IndexError
      end
  end.

(** [sim_scores[0:top_n]] of [recommend_courses], after the sort and the
    [min]. *)
Definition top_scores (cosine_sim : list R) (top_n : Z) : list (nat * R) :=
  let sim_scores := Py.enumerate cosine_sim in
  let sim_scores := Py.sorted_reverse snd Rltb sim_scores in
  let top_n := Z.min top_n (Z.of_nat (List.length sim_scores)) in
  Py.slice_to sim_scores top_n.

(** The order of a ranking: a higher score first, and of two equal scores
    the one with the smaller corpus index first. *)
Definition ranked_before (p q : nat * R) : Prop :=
  snd q < snd p \/ (snd p = snd q /\ (fst p < fst q)%nat).


(** [recommend_courses]; the result has the eleven columns it selects. *)
Definition recommend_courses
  (user_input : string) (tfidf_model : tfidf_model) (tfidf_matrix : matrix)
  (dataframe : list course) (top_n : Z) : outcome (list (fields cell)) :=
  if Py.falsy user_input || (Nat.eqb (List.length dataframe) 0)
  then Ok []
  else
    cosine_sim <-
      cosine_similarity (transform tfidf_model user_input) tfidf_matrix ;;
    let course_indices := map fst (top_scores cosine_sim top_n) in
    picked <- iloc dataframe course_indices ;;
    Ok (map (fun c => named (row c)) picked).

End Ranker.

(** ** The pages of [main] *)

Module App.
Import Catalog Ranker.

(** [TfidfVectorizer(stop_words='english')] before it is fitted:
    [fit_transform] on a corpus gives the fitted model and the term matrix
    of the corpus, or raises. *)
Record vectorizer : Type := mk_vectorizer {
  fit_transform : list string -> outcome (tfidf_model * matrix) }.

(** [get_tfidf_matrix] *)
Definition get_tfidf_matrix (V : vectorizer) (dataframe : list course)
  : outcome (tfidf_model * matrix) :=
  fit_transform V (map features dataframe).

(** How far the start of [main] gets: [st.stop()], an exception nobody
    catches, or the page dispatch. *)
Inductive session : Type :=
| Stopped
| Crashed (e : exn)
| Ready (conn : Store.conn) (df : list course)
        (tfidf : tfidf_model) (tfidf_matrix : matrix).

(** [main], from [init_db()] to [get_tfidf_matrix(df)]. *)
Definition startup (V : vectorizer) (users_data : option Store.conn)
  (csv : file) : session :=
  let conn := Store.init_db users_data in
  match load_course_data csv with
  | None => Stopped
  | Some df =>
      match get_tfidf_matrix V df with
      | Ok (tfidf, tfidf_matrix) => Ready conn df tfidf tfidf_matrix
      | Raise e => Crashed e
      end
  end.

(** What the Recommendations page shows. *)
Inductive shown : Type :=
| Idle                              (* the button was not pressed *)
| WarnNoCourses                     (* No courses match your selected category *)
| WarnNoInput                       (* Please select a category or enter keywords *)
| Recommended (recs : list (fields cell))
| WarnNoRecommendations             (* No recommendations found *)
| WarnNotEnoughData                 (* except ValueError *)
| Uncaught (e : exn).

Definition cell_is (c : cell) (s : string) : bool :=
  match c with
  | Some t => String.eqb t s
  | None => false
  end.

(** [final_filtered_df] *)
Definition final_filtered_df (df : list course) (selected_category : string)
  : list course :=
  if negb (String.eqb selected_category "All")
  then filter (fun c => cell_is (Category (named (row c))) selected_category)
              df
  else df.

(** [combined_input_for_recommendation] *)
Definition combined_input (selected_category user_input_keywords : string)
  : string :=
  ((if negb (String.eqb selected_category "All")
    then selected_category ++ " " else "")
   ++ Py.strip user_input_keywords)%string.

Definition is_empty {A} (l : list A) : bool :=
  match l with
  | [] => true
  | _ :: _ => false
  end.

(** The Recommendations page of [main]. *)
Definition recommendations_page (V : vectorizer) (df : list course)
  (selected_category user_input_keywords : string) (clicked : bool)
  : shown :=
  let filtered := final_filtered_df df selected_category in
  if clicked then
    if negb (is_empty filtered) then
      let combined := combined_input selected_category user_input_keywords in
      if Py.falsy (Py.strip combined) then WarnNoInput
      else
        match
          fm <- fit_transform V (map features filtered) ;;
          recommend_courses combined (fst fm) (snd fm) filtered 5
        with
        | Ok recommendations =>
            if negb (is_empty recommendations)
            then Recommended recommendations
            else WarnNoRecommendations
        | Raise ValueError => WarnNotEnoughData
        | Raise e => Uncaught e
        end
    else WarnNoCourses
  else Idle.

(** The range of [st.slider(label, min_value, max_value, value)]. *)
Definition slider_range (min_value max_value v : Z) : Prop :=
  min_value <= v <= max_value.

(** The Progress page of [main], from the session's user to the
    [update_progress] call; [completion_percentage] is the slider. *)
Definition progress_page (conn : Store.conn) (current_user_id : option Z)
  (course_id_to_update : string) (completion_percentage : Z)
  (clicked : bool) : Store.conn :=
  match current_user_id with
  | Some user_id =>
      if (user_id =? 0) then conn
      else if negb (String.eqb course_id_to_update "Select a Course")
      then
        if clicked
        then Store.update_progress conn user_id course_id_to_update
               (inject_Z completion_percentage / 100)%Q
        else conn
      else conn
  | None => conn
  end.

(** The registration form of the Profile page. *)
Definition register_form (conn : Store.conn)
  (new_username new_interests new_goals new_skill_level : string)
  : Store.conn * option Z :=
  if negb (Py.falsy new_username) && negb (Py.falsy new_interests)
     && negb (Py.falsy new_goals)
  then Store.add_user conn new_username new_interests new_goals
         new_skill_level
  else (conn, None).

(** What a user does to the store in one rerun of the script. *)
Inductive interaction : Type :=
| Register (new_username new_interests new_goals new_skill_level : string)
| TrackProgress (current_user_id : option Z) (course_id_to_update : string)
                (completion_percentage : Z) (clicked : bool).

Definition interact (conn : Store.conn) (i : interaction) : Store.conn :=
  match i with
  | Register n ints gls lvl => fst (register_form conn n ints gls lvl)
  | TrackProgress u k p b => progress_page conn u k p b
  end.

(** The slider of a [TrackProgress] is the one of the Progress page. *)
Definition slider_ok (i : interaction) : Prop :=
  match i with
  | Register _ _ _ _ => True
  | TrackProgress _ _ p _ => slider_range 0 100 p
  end.

End App.

(** ** Fixtures for the worked examples *)

Module Fixture.
Import Catalog Ranker App.

Definition blank (s : string) : bool := Py.falsy (Py.strip s).

(** A vectorizer with a vocabulary of one term, which every text that is
    not blank contains once.  As sklearn's, it gives a blank text the zero
    vector and fails on a corpus that leaves the vocabulary empty. *)
Definition weight (text : string) : R := if blank text then 0%R else 1%R.

Definition one_term_model : tfidf_model := mk_model (fun q => [weight q]).

Definition one_term_vectorizer : vectorizer :=
  mk_vectorizer (fun corpus =>
    if forallb blank corpus then Raise ValueError
    else Ok (one_term_model, map (fun d => [weight d]) corpus)).

Definition text_row (cid ttl cat skills prereq : string) : file_row :=
  mk_row (mk_fields cid ttl cat "" skills prereq "" "" "" "" "") [].

Definition intro_ml : file_row :=
  text_row "C1" "Intro to ML" "Data Science" "python, stats" "none".

Definition finance_101 : file_row :=
  text_row "C2" "Finance 101" "Finance" "accounting" "none".

(** A line with no title, and an empty line. *)
Definition untitled : file_row :=
  text_row "C3" "" "Finance" "tax" "none".

Definition empty_line : file_row := text_row "" "" "" "" "".

(** The frame of a file read without failure. *)
Definition loaded (f : file) : list course :=
  match load_course_data f with
  | Some df => df
  | None => []
  end.

Definition two_courses : list course :=
  loaded (Table [intro_ml; finance_101]).

End Fixture.

(** ** Listings and the session of [main] *)

Module Listing.
Import Catalog.

(** A text of nothing but whitespace: every character is whitespace. *)
Fixpoint all_space (s : string) : bool :=
  match s with
  | EmptyString => true
  | String a s' => Py.isspace a && all_space s'
  end.

(** [Series.unique()]: the values in the order of their first appearance. *)
Fixpoint unique_from (seen : list string) (l : list string) : list string :=
  match l with
  | [] => []
  | x :: l' =>
      if existsb (String.eqb x) seen then unique_from seen l'
      else x :: unique_from (x :: seen) l'
  end.

Definition unique (l : list string) : list string := unique_from [] l.

(** [sorted(l)]: a stable sort into ascending order; [ltb] is [<]. *)
Section Ascending.
Context {A : Type} (ltb : A -> A -> bool).

Fixpoint insert_asc (x : A) (l : list A) : list A :=
  match l with
  | [] => [x]
  | y :: l' => if ltb y x then y :: insert_asc x l' else x :: l
  end.

Definition sorted (l : list A) : list A := fold_right insert_asc [] l.
End Ascending.

(** The texts of a column.  [main] reads the columns [Category] and
    [course_id] of the frame of [load_course_data], in which [dropna] left
    no NaN; a NaN cell has no text here. *)
Definition column_texts (col : fields cell -> cell) (df : list course)
  : list string :=
  flat_map (fun c => match col (named (row c)) with
                     | Some s => [s]
                     | None => []
                     end) df.

(** [['All'] + sorted(df['Category'].unique().tolist())] *)
Definition categories (df : list course) : list string :=
  "All" :: sorted String.ltb (unique (column_texts Category df)).

(** [['Select a Course'] + df['course_id'].unique().tolist()] *)
Definition course_id_options (df : list course) : list string :=
  "Select a Course" :: unique (column_texts course_id df).

End Listing.

Module Session.
Import Catalog Ranker App.

(** The keys of [st.session_state] that the Profile page writes. *)
Record session_state : Type := mk_session {
  current_user_id : option Z;
  current_username : option string;
  current_interests : option string;
  current_goals : option string;
  current_skill_level : option string }.

Definition no_session : session_state := mk_session None None None None None.

Definition signed_in (uid : Z) (name ints gls lvl : string) : session_state :=
  mk_session (Some uid) (Some name) (Some ints) (Some gls) (Some lvl).

(** The fields of the registration form when it is submitted. *)
Record new_user_form : Type := mk_form {
  new_username : string;
  new_interests : string;
  new_goals : string;
  new_skill_level : string }.

(** The Profile page of [main]: [username] is the text input, [submitted]
    the registration form if its button was pressed in this run. *)
Definition profile_page (conn : Store.conn) (ss : session_state)
  (username : string) (submitted : option new_user_form)
  : Store.conn * session_state :=
  if negb (Py.falsy username) then
    match Store.get_user conn username with
    | Some user_data =>
        (conn,
         signed_in (Store.user_id user_data) (Store.username user_data)
                   (Store.interests user_data) (Store.goals user_data)
                   (Store.skill_level user_data))
    | None =>
        match submitted with
        | Some f =>
            match register_form conn (new_username f) (new_interests f)
                                (new_goals f) (new_skill_level f) with
            | (conn', Some user_id) =>
                if user_id =? 0 then (conn', ss)
                else (conn',
                      signed_in user_id (new_username f) (new_interests f)
                                (new_goals f) (new_skill_level f))
            | (conn', None) => (conn', ss)
            end
        | None => (conn, ss)
        end
    end
  else (conn, ss).

(** One rerun of the script on a page that touches the store or the
    session. *)
Inductive visit : Type :=
| Profile (username : string) (submitted : option new_user_form)
| Progress (course_id_to_update : string) (completion_percentage : Z)
           (clicked : bool).

Definition step (st : Store.conn * session_state) (v : visit)
  : Store.conn * session_state :=
  match v with
  | Profile username submitted => profile_page (fst st) (snd st) username submitted
  | Progress k p b =>
      (progress_page (fst st) (current_user_id (snd st)) k p b, snd st)
  end.

Definition run (st : Store.conn * session_state) (vs : list visit)
  : Store.conn * session_state :=
  fold_left step vs st.

(** What the widgets of the Progress page allow: the selectbox gives one of
    its options, the slider a value of its range. *)
Definition visit_ok (df : list course) (v : visit) : Prop :=
  match v with
  | Profile _ _ => True
  | Progress k p _ =>
      In k (Listing.course_id_options df) /\ slider_range 0 100 p
  end.

(** The session names a stored profile. *)
Definition session_ok (conn : Store.conn) (ss : session_state) : Prop :=
  match current_user_id ss with
  | Some uid =>
      exists name ints gls lvl,
        ss = signed_in uid name ints gls lvl
        /\ In (Store.mk_user uid name ints gls lvl) (Store.users conn)
  | None => True
  end.

(** Every progress row is of a stored user. *)
Definition progress_of_users (conn : Store.conn) : Prop :=
  Forall (fun r => exists u, In u (Store.users conn)
                             /\ Store.user_id u = Store.p_user_id r)
         (Store.progress conn).

(** Every progress row is of a course of the catalog. *)
Definition progress_of_catalog (df : list course) (conn : Store.conn) : Prop :=
  Forall (fun r => In (Store.course_id r)
                      (Listing.unique (Listing.column_texts course_id df)))
         (Store.progress conn).

(** What the program relies on of a [TfidfVectorizer]: a fit gives one
    matrix row per document, over a vocabulary that is not empty, and
    [transform] gives rows of the same width. *)
Definition fits_aligned (V : vectorizer) : Prop :=
  forall corpus m Y,
    fit_transform V corpus = Ok (m, Y) ->
    List.length Y = List.length corpus
    /\ forall q, transform m q <> []
                 /\ Forall (fun y => List.length y
                                     = List.length (transform m q)) Y.

End Session.

(** * Properties of the persistence layer *)

Section StoreProps.
Import Store.

Lemma max_rowid_ge (ids : list Z) (x : Z) :
  In x ids -> x <= max_rowid ids.
Proof.
  induction ids as [|y ids IH]; simpl; [tauto|].
  intros [->|Hx]; [lia|]. specialize (IH Hx). lia.
Qed.

Lemma next_rowid_fresh (seq : Z) (ids : list Z) (x : Z) :
  In x ids -> x < next_rowid seq ids.
Proof.
  intros Hx. apply max_rowid_ge in Hx. unfold next_rowid. lia.
Qed.

(** REPLACE finds nothing to remove: the new rowid is in no row. *)
Lemma replace_keeps_all (c : conn) :
  filter (fun r => negb (Z.eqb (progress_id r)
                   (next_rowid (progress_seq c)
                               (map progress_id (progress c)))))
         (progress c) = progress c.
Proof.
  apply forallb_filter_id. apply forallb_forall. intros r Hr.
  apply negb_true_iff, Z.eqb_neq.
  pose proof (next_rowid_fresh (progress_seq c) (map progress_id (progress c))
                (progress_id r) (in_map _ _ _ Hr)).
  lia.
Qed.

Lemma update_progress_appends (c : conn) (uid : Z) (cid : string) (v : Q) :
  progress (update_progress c uid cid v)
  = (progress c
      ++ [mk_progress (next_rowid (progress_seq c)
                                  (map progress_id (progress c)))
                      uid cid v])%list.
Proof.
  unfold update_progress, insert_or_replace_progress. simpl.
  now rewrite replace_keeps_all.
Qed.

Lemma update_progress_users (c : conn) (uid : Z) (cid : string) (v : Q) :
  users (update_progress c uid cid v) = users c.
Proof. reflexivity. Qed.

Lemma records_for_update (c : conn) (uid : Z) (cid : string) (v : Q)
      (u : Z) (k : string) :
  records_for (update_progress c uid cid v) u k
  = (records_for c u k
      ++ (if Z.eqb uid u && String.eqb cid k
          then [mk_progress (next_rowid (progress_seq c)
                                        (map progress_id (progress c)))
                            uid cid v]
          else []))%list.
Proof.
  unfold records_for. rewrite update_progress_appends, filter_app.
  simpl. now destruct (Z.eqb uid u && String.eqb cid k).
Qed.

(** Two updates of one pair leave two more records of that pair, whatever
    the store held before. *)
Lemma update_progress_twice (c : conn) (uid : Z) (cid : string) (v1 v2 : Q) :
  exists id1 id2,
    id1 < id2 /\
    records_for (update_progress (update_progress c uid cid v1) uid cid v2)
                uid cid
    = (records_for c uid cid
       ++ [mk_progress id1 uid cid v1; mk_progress id2 uid cid v2])%list.
Proof.
  set (c1 := update_progress c uid cid v1).
  exists (next_rowid (progress_seq c) (map progress_id (progress c))),
         (next_rowid (progress_seq c1) (map progress_id (progress c1))).
  split.
  - unfold next_rowid at 2. subst c1. simpl. lia.
  - rewrite records_for_update. subst c1. rewrite records_for_update.
    rewrite Z.eqb_refl, String.eqb_refl. simpl.
    now rewrite <- app_assoc.
Qed.

(** C4, as the code behaves: on an empty store, [update_progress] for
    user 1 and course C1 with 0.4 and then with 0.9 leaves two records of
    that pair, the first still holding 0.4: the table has no uniqueness
    constraint on (user_id, course_id), so REPLACE replaces nothing. *)
Theorem update_progress_twice_keeps_both :
  records_for
    (update_progress (update_progress empty_db 1 "C1" (4 # 10))
                     1 "C1" (9 # 10))
    1 "C1"
  = [mk_progress 1 1 "C1" (4 # 10); mk_progress 2 1 "C1" (9 # 10)]
  /\ get_user_progress
       (update_progress (update_progress empty_db 1 "C1" (4 # 10))
                        1 "C1" (9 # 10))
       1
     = [("C1", 4 # 10); ("C1", 9 # 10)].
Proof. split; reflexivity. Qed.

Lemma get_user_progress_update (c : conn) (uid : Z) (cid : string) (v : Q)
      (u : Z) :
  get_user_progress (update_progress c uid cid v) u
  = (get_user_progress c u
     ++ (if Z.eqb uid u then [(cid, v)] else []))%list.
Proof.
  unfold get_user_progress.
  rewrite update_progress_appends, filter_app, map_app. simpl.
  now destruct (Z.eqb uid u).
Qed.

(** C10: [update_progress c uid cid v] leaves the users table as it was,
    keeps every progress record that was there (it adds one record, of
    the pair (uid, cid), at the end), so the records of every other pair
    and what [get_user_progress] returns for every other user are the
    same before and after. *)
Theorem update_progress_frame (c : conn) (uid : Z) (cid : string) (v : Q) :
  users (update_progress c uid cid v) = users c
  /\ users_seq (update_progress c uid cid v) = users_seq c
  /\ (exists r, progress (update_progress c uid cid v)
                = (progress c ++ [r])%list
                /\ p_user_id r = uid /\ course_id r = cid)
  /\ (forall u k, (u, k) <> (uid, cid) ->
        records_for (update_progress c uid cid v) u k = records_for c u k)
  /\ (forall u, u <> uid ->
        get_user_progress (update_progress c uid cid v) u
        = get_user_progress c u).
Proof.
  split; [reflexivity|]. split; [reflexivity|]. split; [|split].
  - eexists. split; [apply update_progress_appends|]. now simpl.
  - intros u k Hne. rewrite records_for_update.
    destruct (Z.eqb_spec uid u) as [->|]; simpl;
      [destruct (String.eqb_spec cid k) as [->|]|];
      try congruence; apply app_nil_r.
  - intros u Hne. rewrite get_user_progress_update.
    destruct (Z.eqb_spec uid u); [congruence|apply app_nil_r].
Qed.

(** *** Registration *)

Lemma find_app_some {A} (f : A -> bool) (l l' : list A) (x : A) :
  find f l = Some x -> find f (l ++ l') = Some x.
Proof.
  induction l as [|y l IH]; simpl; [discriminate|].
  destruct (f y); auto.
Qed.

Lemma find_app_none {A} (f : A -> bool) (l l' : list A) :
  existsb f l = false -> find f (l ++ l') = find f l'.
Proof.
  induction l as [|y l IH]; simpl; [reflexivity|].
  destruct (f y); simpl; [discriminate|auto].
Qed.

Lemma get_user_taken (c : conn) (name : string) (r : user_row) :
  get_user c name = Some r ->
  existsb (fun x => String.eqb (username x) name) (users c) = true.
Proof.
  unfold get_user. intros H. apply existsb_exists. exists r.
  split; [eapply find_some; eauto | apply (find_some _ _ H)].
Qed.

(** A taken username is refused and the store is left as it was. *)
Lemma add_user_taken (c : conn) (name ints gls lvl : string) (r : user_row) :
  get_user c name = Some r -> add_user c name ints gls lvl = (c, None).
Proof.
  intros H. unfold add_user, insert_user.
  now rewrite (get_user_taken _ _ _ H).
Qed.

Lemma add_user_keeps (c : conn) (n ints gls lvl name : string)
      (r : user_row) :
  get_user c name = Some r ->
  get_user (fst (add_user c n ints gls lvl)) name = Some r.
Proof.
  intros H. unfold add_user, insert_user.
  destruct (existsb _ (users c)); simpl; [exact H|].
  unfold get_user. simpl. now apply find_app_some.
Qed.

Lemma exec_keeps_user (c : conn) (k : call) (name : string) (r : user_row) :
  get_user c name = Some r -> get_user (exec c k) name = Some r.
Proof.
  destruct k as [n ints gls lvl|u cid v]; simpl; intros H.
  - now apply add_user_keeps.
  - exact H.
Qed.

Lemma exec_all_keeps_user (ks : list call) (c : conn) (name : string)
      (r : user_row) :
  get_user c name = Some r -> get_user (exec_all c ks) name = Some r.
Proof.
  revert c. induction ks as [|k ks IH]; intros c H; simpl; [exact H|].
  apply IH. now apply exec_keeps_user.
Qed.

Lemma add_user_registers (c c1 : conn) (name ints gls lvl : string)
      (uid : Z) :
  add_user c name ints gls lvl = (c1, Some uid) ->
  get_user c1 name = Some (mk_user uid name ints gls lvl).
Proof.
  unfold add_user, insert_user.
  destruct (existsb _ (users c)) eqn:E; [discriminate|].
  intros H. injection H as <- <-. unfold get_user. simpl.
  rewrite find_app_none by exact E. simpl.
  now rewrite String.eqb_refl.
Qed.

(** C5: once [add_user] has registered a username (it returned the row
    id [uid]), then after any further persistence calls a registration of
    that username returns [None], leaves the store as it is, and the
    profile row of the first registration is still the one [get_user]
    finds. *)
Theorem add_user_duplicate_rejected
        (c c1 : conn) (name ints gls lvl : string) (uid : Z)
        (Hfirst : add_user c name ints gls lvl = (c1, Some uid))
        (ks : list call) (ints' gls' lvl' : string) :
  add_user (exec_all c1 ks) name ints' gls' lvl' = (exec_all c1 ks, None)
  /\ get_user (exec_all c1 ks) name = Some (mk_user uid name ints gls lvl)
  /\ In (mk_user uid name ints gls lvl) (users (exec_all c1 ks)).
Proof.
  pose proof (exec_all_keeps_user ks _ _ _
                (add_user_registers _ _ _ _ _ _ _ Hfirst)) as Hrow.
  split; [now apply add_user_taken with (r := mk_user uid name ints gls lvl)|].
  split; [exact Hrow|].
  exact (proj1 (find_some _ _ Hrow)).
Qed.

Lemma add_user_duplicate_rejected_witness :
  add_user empty_db "ada" "statistics" "a new job" "Beginner"
  = (mk_conn [mk_user 1 "ada" "statistics" "a new job" "Beginner"] 1 [] 0,
     Some 1)
  /\ add_user
       (exec_all
          (mk_conn [mk_user 1 "ada" "statistics" "a new job" "Beginner"]
                   1 [] 0)
          [UpdateProgress 1 "C1" (1 # 2); AddUser "bob" "x" "y" "Advanced"])
       "ada" "finance" "an exam" "Advanced"
     = (exec_all
          (mk_conn [mk_user 1 "ada" "statistics" "a new job" "Beginner"]
                   1 [] 0)
          [UpdateProgress 1 "C1" (1 # 2); AddUser "bob" "x" "y" "Advanced"],
        None).
Proof.
  split; [reflexivity|].
  apply (add_user_duplicate_rejected
           empty_db _ "ada" "statistics" "a new job" "Beginner" 1
           eq_refl).
Defined.

End StoreProps.

(** * Properties of the Progress page *)

Section ProgressPageProps.
Import Store App.

Lemma percentage_fraction_valid (p : Z) :
  slider_range 0 100 p -> (0 <= inject_Z p / 100 <= 1)%Q.
Proof.
  unfold slider_range. intros [H0 H100].
  unfold Qle, Qdiv, Qmult, Qinv, inject_Z. simpl. lia.
Qed.

Lemma update_progress_valid (c : conn) (uid : Z) (cid : string) (v : Q) :
  Forall completion_valid (progress c) -> (0 <= v <= 1)%Q ->
  Forall completion_valid (progress (update_progress c uid cid v)).
Proof.
  intros Hc Hv. rewrite update_progress_appends.
  apply Forall_app. split; [exact Hc|]. now repeat constructor.
Qed.

Lemma add_user_progress (c : conn) (n ints gls lvl : string) :
  progress (fst (add_user c n ints gls lvl)) = progress c.
Proof.
  unfold add_user, insert_user. now destruct (existsb _ (users c)).
Qed.

Lemma interact_valid (c : conn) (i : interaction) :
  slider_ok i -> Forall completion_valid (progress c) ->
  Forall completion_valid (progress (interact c i)).
Proof.
  destruct i as [n ints gls lvl|u k p b]; simpl; intros Hi Hc.
  - unfold register_form.
    destruct (_ && _); [now rewrite add_user_progress|exact Hc].
  - unfold progress_page.
    destruct u as [uid|]; [|exact Hc].
    destruct (uid =? 0); [exact Hc|].
    destruct (negb _); [|exact Hc].
    destruct b; [|exact Hc].
    apply update_progress_valid; [exact Hc|].
    now apply percentage_fraction_valid.
Qed.

(** C9, as amended: [update_progress] stores the value it is given, with
    no check (the new record is the last row and holds [v], for every
    [v]); the Progress page passes the slider's percentage, an integer
    from 0 to 100, divided by 100, so in a store whose completion values
    lie in [0,1] they still do after any run of registrations and
    Progress-page updates. *)
Theorem stored_completion_in_unit_interval
        (c : conn) (evs : list interaction)
        (Hc : Forall completion_valid (progress c))
        (Hevs : Forall slider_ok evs) :
  Forall completion_valid (progress (fold_left interact evs c))
  /\ forall uid cid v,
       exists rowid,
         progress (update_progress c uid cid v)
         = (progress c ++ [mk_progress rowid uid cid v])%list.
Proof.
  split.
  - revert c Hc. induction Hevs as [|i evs Hi _ IH]; intros c Hc; simpl.
    + exact Hc.
    + apply IH. now apply interact_valid.
  - intros uid cid v. eexists. apply update_progress_appends.
Qed.

Lemma stored_completion_in_unit_interval_witness :
  Forall completion_valid
    (progress
       (fold_left interact
          [Register "ada" "statistics" "a new job" "Beginner";
           TrackProgress (Some 1) "C1" 40 true;
           TrackProgress (Some 1) "C1" 100 true]
          empty_db)).
Proof.
  apply (stored_completion_in_unit_interval empty_db).
  - constructor.
  - repeat constructor; unfold slider_range; lia.
Defined.

(** C9, the claim as stated fails: [update_progress] with 150 percent as a
    fraction writes the record, and its value is outside [0,1]. *)
Lemma update_progress_stores_out_of_range :
  progress (update_progress empty_db 1 "C1" (150 # 100))
  = [mk_progress 1 1 "C1" (150 # 100)]
  /\ ~ completion_valid (mk_progress 1 1 "C1" (150 # 100)).
Proof.
  split; [reflexivity|].
  unfold completion_valid, Qle. simpl. lia.
Qed.

End ProgressPageProps.

(** * Properties of the catalog load *)

Section CatalogProps.
Import Catalog.

Lemma filter_map_comm {A B} (f : A -> B) (p : B -> bool) (l : list A) :
  filter p (map f l) = map f (filter (fun x => p (f x)) l).
Proof.
  induction l as [|x l IH]; simpl; [reflexivity|].
  rewrite IH. now destruct (p (f x)).
Qed.

Lemma filter_filter_weaker {A} (p q : A -> bool) (l : list A) :
  (forall x, q x = true -> p x = true) ->
  filter q (filter p l) = filter q l.
Proof.
  intros Hqp. induction l as [|x l IH]; simpl; [reflexivity|].
  destruct (p x) eqn:Hp; simpl; rewrite IH; [reflexivity|].
  destruct (q x) eqn:Hq; [|reflexivity].
  apply Hqp in Hq. congruence.
Qed.

Lemma isna_read_cell (f : string) : isna (read_cell f) = is_na_text f.
Proof. unfold read_cell. now destruct (is_na_text f). Qed.

Lemma subset_cells_read_row (l : file_row) :
  subset_cells (read_row l) = map read_cell (required l).
Proof. reflexivity. Qed.

Lemma existsb_isna_subset (l : file_row) :
  existsb isna (subset_cells (read_row l)) = existsb is_na_text (required l).
Proof.
  rewrite subset_cells_read_row. unfold required. simpl.
  now rewrite !isna_read_cell.
Qed.

(** A row with no NaN in the subset is not all NaN. *)
Lemma subset_clean_not_all_na (r : raw_row) :
  negb (existsb isna (subset_cells r)) = true ->
  negb (forallb isna (all_cells r)) = true.
Proof.
  unfold subset_cells, all_cells. simpl.
  destruct (isna (course_id (named r))); simpl; [discriminate|reflexivity].
Qed.

Lemma dropna_twice (rows : list raw_row) :
  dropna_subset (dropna_all rows) = dropna_subset rows.
Proof.
  apply filter_filter_weaker. exact subset_clean_not_all_na.
Qed.

Lemma load_course_data_table (lines : list file_row) :
  load_course_data (Table lines)
  = Some (map (fun l => mk_course (read_row l) (feature_text (read_row l)))
              (kept_lines lines)).
Proof.
  unfold load_course_data. simpl. f_equal.
  rewrite dropna_twice. unfold dropna_subset, kept_lines.
  rewrite filter_map_comm, map_map. f_equal.
  apply filter_ext. intros l. now rewrite existsb_isna_subset.
Qed.

Lemma read_cell_text (f : string) :
  is_na_text f = false -> read_cell f = Some f /\ f <> "".
Proof.
  intros H. unfold read_cell. rewrite H. split; [reflexivity|].
  intros ->. discriminate H.
Qed.

Lemma feature_text_kept (l : file_row) :
  existsb is_na_text (required l) = false ->
  Forall (fun f => read_cell f = Some f /\ f <> "") (required l)
  /\ feature_text (read_row l)
     = (title (named l) ++ " " ++ Category (named l) ++ " "
          ++ skills_covered (named l) ++ " " ++ prerequisites (named l))%string.
Proof.
  unfold required. simpl. intros H.
  repeat (apply orb_false_iff in H; destruct H as [? H]).
  split.
  - repeat constructor; now apply read_cell_text.
  - unfold feature_text, read_row. simpl.
    unfold read_cell.
    repeat match goal with
           | E : is_na_text _ = false |- _ => rewrite E; clear E
           end.
    reflexivity.
Qed.

(** C7: [load_course_data] on a readable file returns a frame whose rows
    are, in the order of the file, the lines whose course_id, title,
    Category, skills_covered and prerequisites are all read as text; in
    each returned row these five fields are present and not empty, and
    [features] is title, Category, skills_covered and prerequisites in
    that order with one space between them; a line with one of the five
    fields empty (so also a fully empty line) is in no returned row. *)
Theorem load_course_data_materializes_complete_rows (lines : list file_row) :
  exists df,
    load_course_data (Table lines) = Some df
    /\ map row df = map read_row (kept_lines lines)
    /\ Forall (fun c =>
         exists l, In l lines /\ row c = read_row l
           /\ Forall (fun f => read_cell f = Some f /\ f <> "") (required l)
           /\ features c
              = (title (named l) ++ " " ++ Category (named l) ++ " "
                   ++ skills_covered (named l) ++ " "
                   ++ prerequisites (named l))%string) df
    /\ (forall l, In l lines -> In "" (required l) ->
          ~ In (read_row l) (map row df)).
Proof.
  eexists. split; [apply load_course_data_table|].
  assert (Hall : Forall (fun c =>
         exists l, In l lines /\ row c = read_row l
           /\ Forall (fun f => read_cell f = Some f /\ f <> "") (required l)
           /\ features c
              = (title (named l) ++ " " ++ Category (named l) ++ " "
                   ++ skills_covered (named l) ++ " "
                   ++ prerequisites (named l))%string)
         (map (fun l => mk_course (read_row l) (feature_text (read_row l)))
              (kept_lines lines))).
  { apply Forall_map, Forall_forall. intros l Hl.
    apply filter_In in Hl. destruct Hl as [Hin Hk].
    apply negb_true_iff in Hk.
    destruct (feature_text_kept l Hk) as [Hreq Hfeat].
    exists l. simpl. auto. }
  split; [|split; [exact Hall|]].
  - rewrite map_map. reflexivity.
  - intros l Hin Hempty Hrow.
    apply in_map_iff in Hrow. destruct Hrow as [c [Hc Hcin]].
    rewrite Forall_forall in Hall.
    destruct (Hall c Hcin) as [l' [_ [Hrow' [Hreq _]]]].
    assert (Hsub : map read_cell (required l) = map read_cell (required l')).
    { rewrite <- !subset_cells_read_row. congruence. }
    apply (in_map read_cell) in Hempty. rewrite Hsub in Hempty.
    apply in_map_iff in Hempty. destruct Hempty as [f [Hf Hfin]].
    rewrite Forall_forall in Hreq. destruct (Hreq f Hfin) as [Hsome _].
    rewrite Hsome in Hf. discriminate Hf.
Qed.

End CatalogProps.

(** * Properties of the start of [main] *)

Section StartupProps.
Import Catalog App.

Lemma kept_lines_none (lines : list file_row) :
  Forall (fun l => existsb is_na_text (required l) = true) lines ->
  kept_lines lines = [].
Proof.
  induction 1 as [|l lines Hl _ IH]; [reflexivity|].
  unfold kept_lines in *. cbn [filter]. now rewrite Hl.
Qed.

Lemma load_course_data_none (f : file) :
  load_course_data f = None <-> f = NoFile \/ f = Unreadable.
Proof.
  destruct f as [| |lines]; simpl; split; intros H; auto.
  - rewrite load_course_data_table in H. discriminate H.
  - destruct H; discriminate.
Qed.

(** C8, as amended: when every line of a readable file lacks one of the
    five required fields, [load_course_data] returns the empty frame and
    no failure; [main] does not stop there but calls the vectorizer's fit
    on the empty corpus, and goes on exactly if that fit succeeds;
    [main] stops the session exactly when the load returned [None], which
    is when the file is missing or reading it raised. *)
Theorem load_course_data_empty_catalog
        (lines : list file_row)
        (Hnone : Forall (fun l => existsb is_na_text (required l) = true)
                        lines) :
  load_course_data (Table lines) = Some []
  /\ (forall V users_data,
        startup V users_data (Table lines)
        = match fit_transform V [] with
          | Ok (tfidf, tfidf_matrix) =>
              Ready (Store.init_db users_data) [] tfidf tfidf_matrix
          | Raise e => Crashed e
          end)
  /\ (forall V users_data f,
        startup V users_data f = Stopped
        <-> load_course_data f = None)
  /\ (forall f, load_course_data f = None <-> f = NoFile \/ f = Unreadable).
Proof.
  assert (Hload : load_course_data (Table lines) = Some []).
  { rewrite load_course_data_table, kept_lines_none by exact Hnone.
    reflexivity. }
  split; [exact Hload|]. split; [|split].
  - intros V users_data. unfold startup. rewrite Hload. reflexivity.
  - intros V users_data f. unfold startup.
    destruct (load_course_data f) as [df|]; [|tauto].
    destruct (get_tfidf_matrix V df) as [[m x]|e];
      split; intros H; discriminate H.
  - exact load_course_data_none.
Qed.

Lemma load_course_data_empty_catalog_witness :
  load_course_data (Table [Fixture.untitled; Fixture.empty_line]) = Some [].
Proof.
  apply (load_course_data_empty_catalog
           [Fixture.untitled; Fixture.empty_line]).
  repeat constructor.
Defined.

(** C8, the claim as stated fails: a file whose two lines both fail the
    validation loads as the empty frame, not as a failure, and [main]
    does not stop at the load check. *)
Lemma empty_catalog_is_not_a_load_failure :
  load_course_data (Table [Fixture.untitled; Fixture.empty_line]) = Some []
  /\ load_course_data (Table [Fixture.untitled; Fixture.empty_line]) <> None
  /\ startup Fixture.one_term_vectorizer None
             (Table [Fixture.untitled; Fixture.empty_line])
     <> Stopped.
Proof.
  split; [reflexivity|]. split; discriminate.
Qed.

End StartupProps.

(** * Properties of the built-ins *)

Section SortedProps.
Context {A K : Type} (key : A -> K) (ltb : K -> K -> bool).

Lemma insert_desc_perm (x : A) (l : list A) :
  Permutation (Py.insert_desc key ltb x l) (x :: l).
Proof.
  induction l as [|y l IH]; simpl; [reflexivity|].
  destruct (ltb (key x) (key y)); [|reflexivity].
  rewrite IH. apply perm_swap.
Qed.

Lemma sorted_reverse_perm (l : list A) :
  Permutation (Py.sorted_reverse key ltb l) l.
Proof.
  induction l as [|x l IH]; simpl; [reflexivity|].
  rewrite insert_desc_perm. now constructor.
Qed.

Lemma sorted_reverse_length (l : list A) :
  List.length (Py.sorted_reverse key ltb l) = List.length l.
Proof. apply Permutation_length, sorted_reverse_perm. Qed.

Lemma sorted_reverse_In (l : list A) (x : A) :
  In x (Py.sorted_reverse key ltb l) <-> In x l.
Proof.
  split; apply Permutation_in;
    [|symmetry]; apply sorted_reverse_perm.
Qed.

Lemma insert_desc_Forall (P : A -> Prop) (x : A) (l : list A) :
  P x -> Forall P l -> Forall P (Py.insert_desc key ltb x l).
Proof.
  intros Hx Hl.
  eapply Permutation_Forall; [symmetry; apply insert_desc_perm|].
  now constructor.
Qed.

End SortedProps.

Section SliceProps.
Context {A : Type}.

Lemma slice_to_firstn (l : list A) (stop : Z) :
  0 <= stop -> Py.slice_to l stop = firstn (Z.to_nat stop) l.
Proof.
  intros H. unfold Py.slice_to.
  destruct (Z.ltb_spec stop 0); [lia|reflexivity].
Qed.

Lemma slice_to_length (l : list A) (stop : Z) :
  0 <= stop ->
  Z.of_nat (List.length (Py.slice_to l stop))
  = Z.min stop (Z.of_nat (List.length l)).
Proof.
  intros H. rewrite slice_to_firstn by exact H.
  rewrite length_firstn. lia.
Qed.

Lemma firstn_In (n : nat) (l : list A) (x : A) :
  In x (firstn n l) -> In x l.
Proof.
  revert l. induction n as [|n IH]; intros [|y l]; simpl; try tauto.
  intros [->|H]; auto.
Qed.

Lemma slice_to_incl (l : list A) (stop : Z) (x : A) :
  In x (Py.slice_to l stop) -> In x l.
Proof.
  unfold Py.slice_to. destruct (stop <? 0); apply firstn_In.
Qed.

Lemma enumerate_In (l : list A) (i : nat) (x : A) :
  In (i, x) (Py.enumerate l) -> nth_error l i = Some x.
Proof.
  unfold Py.enumerate.
  assert (G : forall s, In (i, x) (combine (seq s (List.length l)) l) ->
                        (s <= i)%nat /\ nth_error l (i - s) = Some x).
  { induction l as [|y l IH]; simpl; intros s; [tauto|].
    intros [E|Hin].
    - injection E as -> ->. rewrite Nat.sub_diag. auto.
    - destruct (IH _ Hin) as [Hle Hnth]. split; [lia|].
      replace (i - s)%nat with (S (i - S s)) by lia. exact Hnth. }
  intros H. destruct (G 0%nat H) as [_ Hn].
  now rewrite Nat.sub_0_r in Hn.
Qed.

Lemma enumerate_length (l : list A) :
  List.length (Py.enumerate l) = List.length l.
Proof.
  unfold Py.enumerate. rewrite length_combine, length_seq. lia.
Qed.

Lemma enumerate_index_sorted (l : list A) :
  StronglySorted (fun p q : nat * A => (fst p < fst q)%nat) (Py.enumerate l).
Proof.
  unfold Py.enumerate. generalize 0%nat.
  induction l as [|y l IH]; simpl; intros s; constructor; [apply IH|].
  apply Forall_forall. intros [j z] Hin. simpl.
  apply in_combine_l, in_seq in Hin. lia.
Qed.

End SliceProps.

(** * Properties of the ranking order *)

Section RankingProps.
Import Ranker.
Local Open Scope R_scope.

Lemma Rltb_true (a b : R) : Rltb a b = true <-> a < b.
Proof. unfold Rltb. destruct (Rlt_dec a b); split; auto; discriminate. Qed.

Lemma Rltb_false (a b : R) : Rltb a b = false <-> b <= a.
Proof.
  unfold Rltb. destruct (Rlt_dec a b); split; intros H;
    try reflexivity; try discriminate; lra.
Qed.

Lemma ranked_before_asym (p q : nat * R) :
  ranked_before p q -> ranked_before q p -> False.
Proof. unfold ranked_before. intros [?|[? ?]] [?|[? ?]]; try lra; lia. Qed.

(** Inserting an element that stood before all of [l]. *)
Lemma insert_desc_ranked (x : nat * R) (l : list (nat * R)) :
  StronglySorted ranked_before l ->
  Forall (fun y => (fst x < fst y)%nat) l ->
  StronglySorted ranked_before (Py.insert_desc snd Rltb x l).
Proof.
  induction 1 as [|y l Hl IH Hy]; intros Hx; simpl.
  - repeat constructor.
  - inversion Hx as [|? ? Hxy Hxl]; subst.
    destruct (Rltb (snd x) (snd y)) eqn:E.
    + apply Rltb_true in E. constructor; [now apply IH|].
      apply insert_desc_Forall; [now left|exact Hy].
    + apply Rltb_false in E.
      constructor; [now constructor|].
      assert (Hbxy : ranked_before x y).
      { unfold ranked_before.
        destruct (Rle_lt_or_eq_dec _ _ E) as [Hlt|Heq]; [now left|].
        right. split; [now symmetry|exact Hxy]. }
      constructor; [exact Hbxy|].
      rewrite Forall_forall in Hy, Hxl |- *.
      intros z Hz. specialize (Hy z Hz). specialize (Hxl z Hz).
      unfold ranked_before in *.
      destruct (Rlt_dec (snd z) (snd x)); [now left|].
      right. split; [|exact Hxl].
      destruct Hy as [?|[? _]]; lra.
Qed.

Lemma sorted_reverse_ranked (l : list (nat * R)) :
  StronglySorted (fun p q => (fst p < fst q)%nat) l ->
  StronglySorted ranked_before (Py.sorted_reverse snd Rltb l).
Proof.
  induction 1 as [|x l Hl IH Hx]; simpl; [constructor|].
  apply insert_desc_ranked; [exact IH|].
  eapply Permutation_Forall; [symmetry; apply sorted_reverse_perm|exact Hx].
Qed.

(** A ranking order admits one arrangement of a list. *)
Lemma ranked_unique (s s' : list (nat * R)) :
  StronglySorted ranked_before s -> StronglySorted ranked_before s' ->
  Permutation s s' -> s = s'.
Proof.
  intros Hs. revert s'.
  induction Hs as [|x t Ht IH Hx]; intros s' Hs' Hp.
  - now apply Permutation_nil in Hp.
  - destruct Hs' as [|y t' Ht' Hy].
    + symmetry in Hp. now apply Permutation_nil in Hp.
    + assert (Exy : x = y).
      { assert (Hxin : In x (y :: t'))
          by (eapply Permutation_in; [exact Hp|now left]).
        assert (Hyin : In y (x :: t))
          by (eapply Permutation_in; [symmetry; exact Hp|now left]).
        destruct Hxin as [->|Hxin]; [reflexivity|].
        destruct Hyin as [->|Hyin]; [reflexivity|].
        rewrite Forall_forall in Hx, Hy.
        exfalso. exact (ranked_before_asym _ _ (Hx _ Hyin) (Hy _ Hxin)). }
      subst y. f_equal. apply IH; [exact Ht'|].
      now apply Permutation_cons_inv in Hp.
Qed.

(** With a non-negative [top_n], [top_scores] is the first
    [min top_n count] entries of the ranking. *)
Lemma top_scores_length (cosine_sim : list R) (top_n : Z) :
  (0 <= top_n)%Z ->
  Z.of_nat (List.length (top_scores cosine_sim top_n))
  = Z.min top_n (Z.of_nat (List.length cosine_sim)).
Proof.
  intros H. unfold top_scores.
  rewrite slice_to_length, sorted_reverse_length, enumerate_length by lia.
  lia.
Qed.

Lemma top_scores_In (cosine_sim : list R) (top_n : Z) (i : nat) (s : R) :
  In (i, s) (top_scores cosine_sim top_n) -> nth_error cosine_sim i = Some s.
Proof.
  unfold top_scores. intros H.
  apply slice_to_incl, sorted_reverse_In in H.
  now apply enumerate_In.
Qed.

End RankingProps.

(** * Properties of the cosine similarity *)

Section CosineProps.
Import Ranker.
Local Open Scope R_scope.










End CosineProps.

(** * Properties of [recommend_courses] *)

Section RecommendProps.
Import Catalog Ranker.
Local Open Scope R_scope.

Lemma iloc_ok (df : list course) (idx : list nat) :
  Forall (fun i => (i < List.length df)%nat) idx ->
  exists cs, iloc df idx = Ok cs
             /\ Forall2 (fun c i => nth_error df i = Some c) cs idx.
Proof.
  induction 1 as [|i idx Hi _ [cs [E F]]]; simpl.
  - exists []. split; [reflexivity|constructor].
  - apply nth_error_Some in Hi.
    destruct (nth_error df i) as [c|] eqn:Ec; [|congruence].
    exists (c :: cs). rewrite E. simpl. split; [reflexivity|].
    now constructor.
Qed.

Lemma cosine_similarity_ok (X : vector) (Y : matrix) :
  X <> [] -> Y <> [] ->
  Forall (fun y => List.length y = List.length X) Y ->
  cosine_similarity X Y
  = Ok (map (fun y => dot (normalize X) (normalize y)) Y).
Proof.
  intros HX HY H. unfold cosine_similarity.
  destruct X as [|x X]; [congruence|]. destruct Y as [|y0 Y]; [congruence|].
  cbn [List.length Nat.eqb orb].
  replace (forallb _ (y0 :: Y)) with true; [reflexivity|].
  symmetry. apply forallb_forall. rewrite Forall_forall in H.
  intros y Hy. apply Nat.eqb_eq. auto.
Qed.




(** Past its guard, and on a matrix with one row per course and the
    width of the query row, [recommend_courses] returns the rows at the
    indices of [top_scores]. *)
Lemma recommend_courses_aligned
      (q : string) (model : tfidf_model) (Y : matrix) (df : list course)
      (top_n : Z) :
  Py.falsy q || Nat.eqb (List.length df) 0 = false ->
  transform model q <> [] ->
  Forall (fun y => List.length y = List.length (transform model q)) Y ->
  List.length Y = List.length df ->
  exists cs,
    recommend_courses q model Y df top_n
    = Ok (map (fun c => named (row c)) cs)
    /\ Forall2 (fun c i => nth_error df i = Some c) cs
         (map fst
            (top_scores
               (map (fun y => dot (normalize (transform model q))
                                  (normalize y)) Y) top_n)).
Proof.
  intros Hguard Hvocab Hdim Hrows. unfold recommend_courses.
  assert (HY : Y <> []).
  { intros ->. apply orb_false_iff in Hguard. destruct Hguard as [_ Hdf].
    rewrite <- Hrows in Hdf. discriminate Hdf. }
  rewrite Hguard, cosine_similarity_ok by assumption. simpl.
  set (sims := map _ Y).
  destruct (iloc_ok df (map fst (top_scores sims top_n))) as [cs [E F]].
  { apply Forall_forall. intros i Hi.
    apply in_map_iff in Hi. destruct Hi as [[j s] [<- Hp]]. simpl.
    apply top_scores_In in Hp.
    assert (Hlt : (j < List.length sims)%nat)
      by (apply nth_error_Some; congruence).
    subst sims. rewrite length_map in Hlt. lia. }
  exists cs. rewrite E. simpl. auto.
Qed.



(** C3, as amended: with the empty string as query, and with an empty
    course sequence, [recommend_courses] returns the empty result and
    raises nothing, whatever the vector space and [top_n]. *)
Theorem recommend_courses_empty_input
        (model : tfidf_model) (Y : matrix) (top_n : Z) :
  (forall df, recommend_courses "" model Y df top_n = Ok [])
  /\ (forall q, recommend_courses q model Y [] top_n = Ok []).
Proof.
  split.
  - intros df. reflexivity.
  - intros q. unfold recommend_courses. simpl.
    now rewrite orb_true_r.
Qed.

(** C3, the claim as stated fails: the query of one space is blank, and
    [recommend_courses] returns a course for it. *)
Lemma recommend_courses_blank_query_ranked :
  Py.strip " " = ""
  /\ recommend_courses " " Fixture.one_term_model [[1]]
                       (Fixture.loaded (Table [Fixture.finance_101])) 5
     = Ok [named (read_row Fixture.finance_101)]
  /\ recommend_courses " " Fixture.one_term_model [[1]]
                       (Fixture.loaded (Table [Fixture.finance_101])) 5
     <> Ok [].
Proof.
  split; [reflexivity|]. split; [reflexivity|discriminate].
Qed.

Lemma StronglySorted_nth_error {A} (Rel : A -> A -> Prop) (l : list A)
      (a b : nat) (x y : A) :
  StronglySorted Rel l -> (a < b)%nat ->
  nth_error l a = Some x -> nth_error l b = Some y -> Rel x y.
Proof.
  intros Hs. revert a b.
  induction Hs as [|z l Hl IH Hz]; intros a b Hab Ha Hb.
  - destruct a; discriminate.
  - destruct b as [|b]; [lia|]. simpl in Hb.
    destruct a as [|a]; simpl in Ha.
    + injection Ha as ->. rewrite Forall_forall in Hz.
      apply Hz. eapply nth_error_In; eauto.
    + apply (IH a b); [lia|exact Ha|exact Hb].
Qed.

(** C2: [recommend_courses] is a function of its inputs, and the ranking
    it cuts its result from is the one arrangement of the
    [(index, score)] pairs in which a higher score comes first and equal
    scores keep the order of their corpus indices: the ranking is a
    permutation of the enumerated scores; of two of its entries the
    earlier has the higher score, or the same score and the smaller
    index; every arrangement with these two properties is equal to it;
    and the result is the courses at the indices of its first
    [min top_n count] entries. *)
Theorem ranking_stable_and_unique (cosine_sim : list R) (top_n : Z) :
  let ranking := Py.sorted_reverse snd Rltb (Py.enumerate cosine_sim) in
  Permutation ranking (Py.enumerate cosine_sim)
  /\ (forall a b i j s t,
        (a < b)%nat ->
        nth_error ranking a = Some (i, s) ->
        nth_error ranking b = Some (j, t) ->
        t < s \/ (s = t /\ (i < j)%nat))
  /\ (forall s', Permutation s' (Py.enumerate cosine_sim) ->
                 StronglySorted ranked_before s' -> s' = ranking)
  /\ (forall q model Y df,
        cosine_similarity (transform model q) Y = Ok cosine_sim ->
        recommend_courses q model Y df top_n
        = if Py.falsy q || Nat.eqb (List.length df) 0 then Ok []
          else
            picked <-
              iloc df
                (map fst
                   (Py.slice_to ranking
                      (Z.min top_n (Z.of_nat (List.length ranking))))) ;;
            Ok (map (fun c => named (row c)) picked)).
Proof.
  intros ranking.
  assert (Hperm : Permutation ranking (Py.enumerate cosine_sim))
    by apply sorted_reverse_perm.
  assert (Hsorted : StronglySorted ranked_before ranking)
    by apply sorted_reverse_ranked, enumerate_index_sorted.
  split; [exact Hperm|]. split; [|split].
  - intros a b i j s t Hab Ha Hb.
    exact (StronglySorted_nth_error _ _ _ _ _ _ Hsorted Hab Ha Hb).
  - intros s' Hp Hs. apply ranked_unique; [exact Hs|exact Hsorted|].
    now rewrite Hp, Hperm.
  - intros q model Y df Hsim. unfold recommend_courses.
    rewrite Hsim. reflexivity.
Qed.

Lemma ranking_stable_and_unique_witness :
  [(1%nat, 3); (2%nat, 3); (0%nat, 1); (3%nat, 0)]
  = Py.sorted_reverse snd Rltb (Py.enumerate [1; 3; 3; 0]).
Proof.
  apply (proj1 (proj2 (proj2 (ranking_stable_and_unique [1; 3; 3; 0] 5)))).
  - symmetry.
    apply (Permutation_cons_app [(1%nat, 3); (2%nat, 3)] [(3%nat, 0)]
                                (0%nat, 1)).
    reflexivity.
  - repeat first [apply SSorted_nil | apply SSorted_cons
                  | apply Forall_nil | apply Forall_cons];
      unfold ranked_before; simpl;
      first [left; lra | right; split; [lra|lia]].
Defined.

End RecommendProps.

(** * Properties of the Recommendations page *)

Section RecommendationsPageProps.
Import Catalog Ranker App.

(** A blank combined input is stopped by the page, before the ranker. *)
Lemma blank_input_warned (V : vectorizer) (df : list course)
      (selected_category user_input_keywords : string) :
  final_filtered_df df selected_category <> [] ->
  Py.strip (combined_input selected_category user_input_keywords) = "" ->
  recommendations_page V df selected_category user_input_keywords true
  = WarnNoInput.
Proof.
  intros Hne Hblank. unfold recommendations_page.
  destruct (final_filtered_df df selected_category); [congruence|].
  simpl. now rewrite Hblank.
Qed.

(** C6, as amended: with the category Finance selected and no keywords,
    the query is the category name and a space, which is not blank; when
    fitting the vectorizer on the feature texts of the Finance rows alone
    gives a model with a vocabulary that is not empty and a matrix with one
    row per Finance course, of the width of the projected query, the page
    shows the result of
    [recommend_courses] for that query, model and matrix on the Finance
    rows, and this result has [min 5 count] courses: it is not empty. *)
Theorem finance_without_keywords_ranks_subset
        (V : vectorizer) (df : list course) (m : tfidf_model) (Y : matrix)
        (Hne : final_filtered_df df "Finance" <> [])
        (Hfit : fit_transform V (map features (final_filtered_df df "Finance"))
                = Ok (m, Y))
        (Hvocab : transform m "Finance " <> [])
        (Hdim : Forall (fun y => List.length y
                                 = List.length (transform m "Finance ")) Y)
        (Hrows : List.length Y
                 = List.length (final_filtered_df df "Finance")) :
  final_filtered_df df "Finance"
  = filter (fun c => cell_is (Category (named (row c))) "Finance") df
  /\ combined_input "Finance" "" = "Finance "
  /\ exists recs,
       recommendations_page V df "Finance" "" true = Recommended recs
       /\ recommend_courses "Finance " m Y (final_filtered_df df "Finance") 5
          = Ok recs
       /\ Z.of_nat (List.length recs)
          = Z.min 5 (Z.of_nat (List.length (final_filtered_df df "Finance")))
       /\ recs <> [].
Proof.
  split; [reflexivity|]. split; [reflexivity|].
  set (filtered := final_filtered_df df "Finance") in *.
  assert (Hguard : Py.falsy "Finance " || Nat.eqb (List.length filtered) 0
                   = false).
  { destruct filtered; [congruence|reflexivity]. }
  destruct (recommend_courses_aligned "Finance " m Y filtered 5
              Hguard Hvocab Hdim Hrows) as [cs [E F]].
  assert (Hlen : Z.of_nat (List.length (map (fun c => named (row c)) cs))
                 = Z.min 5 (Z.of_nat (List.length filtered))).
  { rewrite length_map, (Forall2_length F), length_map.
    rewrite top_scores_length by lia.
    rewrite length_map. lia. }
  assert (Hrecs : map (fun c => named (row c)) cs <> []).
  { intros Hnil. rewrite Hnil in Hlen. simpl in Hlen.
    destruct filtered; [congruence|]. simpl List.length in Hlen. lia. }
  exists (map (fun c => named (row c)) cs).
  split; [|split; [exact E|split; [exact Hlen|exact Hrecs]]].
  unfold recommendations_page. fold filtered.
  destruct filtered as [|c0 rest] eqn:Ef; [congruence|].
  cbn [is_empty negb].
  change (combined_input "Finance" "") with "Finance ".
  change (Py.falsy (Py.strip "Finance ")) with false. cbv iota.
  rewrite Hfit. cbn [bind fst snd]. rewrite E.
  destruct (map (fun c => named (row c)) cs); [congruence|reflexivity].
Qed.

Lemma finance_without_keywords_ranks_subset_witness :
  exists recs,
    recommendations_page Fixture.one_term_vectorizer Fixture.two_courses
                         "Finance" "" true
    = Recommended recs
    /\ recommend_courses "Finance " Fixture.one_term_model [[1%R]]
         (final_filtered_df Fixture.two_courses "Finance") 5
       = Ok recs
    /\ Z.of_nat (List.length recs)
       = Z.min 5 (Z.of_nat (List.length
                              (final_filtered_df Fixture.two_courses
                                                 "Finance")))
    /\ recs <> [].
Proof.
  apply (finance_without_keywords_ranks_subset
           Fixture.one_term_vectorizer Fixture.two_courses
           Fixture.one_term_model [[1%R]]).
  - discriminate.
  - reflexivity.
  - discriminate.
  - repeat constructor.
  - reflexivity.
Defined.

(** C6, the claim as stated fails: on the catalog of the two example
    courses, with Finance selected and no keywords, the page shows the
    Finance course; the ranking is not empty. *)
Lemma finance_without_keywords_not_empty :
  recommendations_page Fixture.one_term_vectorizer Fixture.two_courses
                       "Finance" "" true
  = Recommended [named (read_row Fixture.finance_101)].
Proof. reflexivity. Qed.

End RecommendationsPageProps.

(** * Worked examples *)

Section Examples.
Import Catalog Ranker App Fixture.

Example load_two_courses :
  map features two_courses
  = ["Intro to ML Data Science python, stats none";
     "Finance 101 Finance accounting none"].
Proof. reflexivity. Qed.

Example load_drops_incomplete_lines :
  load_course_data (Table [untitled; intro_ml; empty_line])
  = Some [mk_course (read_row intro_ml)
                    "Intro to ML Data Science python, stats none"].
Proof. reflexivity. Qed.

Example load_missing_file : load_course_data NoFile = None.
Proof. reflexivity. Qed.

(** Equal keys keep their order, higher keys come first. *)
Example sorted_reverse_ties :
  Py.sorted_reverse snd Z.ltb
    [(0%nat, 1); (1%nat, 3); (2%nat, 3); (3%nat, 0)]
  = [(1%nat, 3); (2%nat, 3); (0%nat, 1); (3%nat, 0)].
Proof. reflexivity. Qed.

Example slice_to_negative_stop : Py.slice_to [1; 2; 3; 4] (-1) = [1; 2; 3].
Proof. reflexivity. Qed.

Example strip_keywords : Py.strip "  machine learning  " = "machine learning".
Proof. reflexivity. Qed.

Example combined_input_all : combined_input "All" "  python " = "python".
Proof. reflexivity. Qed.

Example second_user_gets_next_id :
  snd (Store.add_user
         (fst (Store.add_user Store.empty_db "ada" "ml" "job" "Beginner"))
         "bob" "web" "exam" "Advanced")
  = Some 2.
Proof. reflexivity. Qed.

Example all_category_without_keywords_warns :
  recommendations_page one_term_vectorizer two_courses "All" "   " true
  = WarnNoInput.
Proof. reflexivity. Qed.

Example unknown_category_warns :
  recommendations_page one_term_vectorizer two_courses "Design" "x" true
  = WarnNoCourses.
Proof. reflexivity. Qed.

End Examples.

(** * More on the persistence layer *)

Section StoreRuns.
Import Store.

Lemma StronglySorted_snoc {A} (Rel : A -> A -> Prop) (l : list A) (x : A) :
  StronglySorted Rel l -> Forall (fun y => Rel y x) l ->
  StronglySorted Rel (l ++ [x]).
Proof.
  induction 1 as [|y l Hl IH Hy]; intros Hx; simpl.
  - repeat constructor.
  - inversion Hx; subst. constructor; [now apply IH|].
    apply Forall_app. split; [exact Hy|now repeat constructor].
Qed.

Lemma next_rowid_above (seq : Z) (ids : list Z) :
  0 < next_rowid seq ids /\ Forall (fun y => y < next_rowid seq ids) ids.
Proof.
  split.
  - unfold next_rowid.
    assert (0 <= max_rowid ids)
      by (induction ids; simpl; lia).
    lia.
  - apply Forall_forall. intros y Hy. now apply next_rowid_fresh.
Qed.

Lemma existsb_username_false (us : list user_row) (name : string) :
  existsb (fun r => String.eqb (username r) name) us = false ->
  ~ In name (map username us).
Proof.
  intros H Hin. apply in_map_iff in Hin. destruct Hin as [r [<- Hr]].
  assert (E : existsb (fun x => String.eqb (username x) (username r)) us = true).
  { apply existsb_exists. exists r. split; [exact Hr|apply String.eqb_refl]. }
  congruence.
Qed.

Lemma get_user_none_free (c : conn) (name : string) :
  get_user c name = None ->
  existsb (fun r => String.eqb (username r) name) (users c) = false.
Proof.
  unfold get_user. intros H.
  destruct (existsb _ (users c)) eqn:E; [|reflexivity].
  apply existsb_exists in E. destruct E as [r [Hr Hn]].
  exfalso. exact (eq_true_false_abs _ Hn (find_none _ _ H r Hr)).
Qed.

(** What a successful insert does to the store. *)
Lemma add_user_free (c : conn) (name ints gls lvl : string) :
  existsb (fun r => String.eqb (username r) name) (users c) = false ->
  add_user c name ints gls lvl
  = (mk_conn (users c
              ++ [mk_user (next_rowid (users_seq c) (map user_id (users c)))
                          name ints gls lvl])
             (next_rowid (users_seq c) (map user_id (users c)))
             (progress c) (progress_seq c),
     Some (next_rowid (users_seq c) (map user_id (users c)))).
Proof. intros H. unfold add_user, insert_user. now rewrite H. Qed.

Lemma find_app_other {A} (f : A -> bool) (l : list A) (x : A) :
  f x = false -> find f (l ++ [x]) = find f l.
Proof.
  intros Hx. induction l as [|y l IH]; simpl; [now rewrite Hx|].
  now destruct (f y).
Qed.

(** A free username is registered: [add_user] returns an identifier, at
    least 1 and above every identifier of the table; the table gains the
    new row at its end and nothing else changes; [get_user] then finds the
    new row, and the look-up of every other name is as before. *)
Theorem add_user_registers_free_name
        (c : conn) (name ints gls lvl : string)
        (Hfree : get_user c name = None) :
  exists uid,
    snd (add_user c name ints gls lvl) = Some uid
    /\ 0 < uid
    /\ Forall (fun u => user_id u < uid) (users c)
    /\ users (fst (add_user c name ints gls lvl))
       = (users c ++ [mk_user uid name ints gls lvl])%list
    /\ progress (fst (add_user c name ints gls lvl)) = progress c
    /\ get_user (fst (add_user c name ints gls lvl)) name
       = Some (mk_user uid name ints gls lvl)
    /\ forall other, other <> name ->
         get_user (fst (add_user c name ints gls lvl)) other
         = get_user c other.
Proof.
  pose proof (get_user_none_free _ _ Hfree) as E.
  rewrite (add_user_free _ _ ints gls lvl E). simpl.
  destruct (next_rowid_above (users_seq c) (map user_id (users c)))
    as [Hpos Habove].
  eexists. split; [reflexivity|]. split; [exact Hpos|].
  split; [|split; [reflexivity|split; [reflexivity|split]]].
  - rewrite Forall_map in Habove. exact Habove.
  - unfold get_user. simpl. rewrite find_app_none by exact E.
    simpl. now rewrite String.eqb_refl.
  - intros other Hne. unfold get_user. simpl.
    apply find_app_other. simpl. now apply String.eqb_neq.
Qed.

Lemma add_user_registers_free_name_witness :
  exists uid,
    snd (add_user empty_db "ada" "statistics" "a new job" "Beginner")
    = Some uid
    /\ 0 < uid
    /\ Forall (fun u => user_id u < uid) (users empty_db)
    /\ users (fst (add_user empty_db "ada" "statistics" "a new job"
                            "Beginner"))
       = (users empty_db
          ++ [mk_user uid "ada" "statistics" "a new job" "Beginner"])%list
    /\ progress (fst (add_user empty_db "ada" "statistics" "a new job"
                               "Beginner"))
       = progress empty_db
    /\ get_user (fst (add_user empty_db "ada" "statistics" "a new job"
                               "Beginner")) "ada"
       = Some (mk_user uid "ada" "statistics" "a new job" "Beginner")
    /\ forall other, other <> "ada" ->
         get_user (fst (add_user empty_db "ada" "statistics" "a new job"
                                 "Beginner")) other
         = get_user empty_db other.
Proof.
  apply (add_user_registers_free_name empty_db "ada" "statistics"
           "a new job" "Beginner").
  reflexivity.
Defined.

End StoreRuns.

Section StoreInvariants.
Import Store.

Lemma add_user_cases (c : conn) (name ints gls lvl : string) :
  fst (add_user c name ints gls lvl) = c
  \/ (~ In name (map username (users c))
      /\ users (fst (add_user c name ints gls lvl))
         = (users c
            ++ [mk_user (next_rowid (users_seq c) (map user_id (users c)))
                        name ints gls lvl])%list
      /\ progress (fst (add_user c name ints gls lvl)) = progress c).
Proof.
  destruct (existsb (fun r => String.eqb (username r) name) (users c)) eqn:E.
  - left. unfold add_user, insert_user. now rewrite E.
  - right. rewrite (add_user_free _ _ ints gls lvl E). simpl.
    split; [now apply existsb_username_false|auto].
Qed.

Lemma NoDup_snoc {A} (l : list A) (x : A) :
  NoDup l -> ~ In x l -> NoDup (l ++ [x]).
Proof.
  intros Hl Hx. apply NoDup_app; [exact Hl|repeat constructor; auto|].
  intros y Hy [<-|[]]. contradiction.
Qed.

Lemma exec_keys (c : conn) (k : call) :
  NoDup (map username (users c)) ->
  StronglySorted Z.lt (map user_id (users c)) ->
  StronglySorted Z.lt (map progress_id (progress c)) ->
  NoDup (map username (users (exec c k)))
  /\ StronglySorted Z.lt (map user_id (users (exec c k)))
  /\ StronglySorted Z.lt (map progress_id (progress (exec c k))).
Proof.
  intros Hn Hu Hp. destruct k as [name ints gls lvl|uid cid v]; cbn [exec].
  - destruct (add_user_cases c name ints gls lvl) as [->|[Hfree [-> ->]]];
      [auto|].
    rewrite !map_app. simpl. split; [now apply NoDup_snoc|].
    split; [|exact Hp].
    apply StronglySorted_snoc; [exact Hu|].
    apply next_rowid_above.
  - rewrite update_progress_appends, map_app. simpl.
    split; [exact Hn|]. split; [exact Hu|].
    apply StronglySorted_snoc; [exact Hp|].
    apply next_rowid_above.
Qed.

(** The keys of both tables survive every run of calls: in a store with
    distinct usernames and with the row identifiers of each table strictly
    increasing in row order (so distinct), the same holds after any
    sequence of [add_user] and [update_progress] calls. *)
Theorem store_keys_preserved
        (c : conn) (ks : list call)
        (Hnames : NoDup (map username (users c)))
        (Huids : StronglySorted Z.lt (map user_id (users c)))
        (Hpids : StronglySorted Z.lt (map progress_id (progress c))) :
  NoDup (map username (users (exec_all c ks)))
  /\ StronglySorted Z.lt (map user_id (users (exec_all c ks)))
  /\ StronglySorted Z.lt (map progress_id (progress (exec_all c ks))).
Proof.
  revert c Hnames Huids Hpids.
  induction ks as [|k ks IH]; intros c Hn Hu Hp; simpl; [auto|].
  destruct (exec_keys c k Hn Hu Hp) as [Hn' [Hu' Hp']].
  now apply IH.
Qed.

Lemma store_keys_preserved_witness :
  NoDup (map username
           (users (exec_all empty_db
                     [AddUser "ada" "ml" "job" "Beginner";
                      AddUser "ada" "web" "exam" "Advanced";
                      UpdateProgress 1 "C1" (1 # 2);
                      AddUser "bob" "web" "exam" "Advanced"])))
  /\ StronglySorted Z.lt
       (map user_id
          (users (exec_all empty_db
                    [AddUser "ada" "ml" "job" "Beginner";
                     AddUser "ada" "web" "exam" "Advanced";
                     UpdateProgress 1 "C1" (1 # 2);
                     AddUser "bob" "web" "exam" "Advanced"])))
  /\ StronglySorted Z.lt
       (map progress_id
          (progress (exec_all empty_db
                       [AddUser "ada" "ml" "job" "Beginner";
                        AddUser "ada" "web" "exam" "Advanced";
                        UpdateProgress 1 "C1" (1 # 2);
                        AddUser "bob" "web" "exam" "Advanced"]))).
Proof.
  apply (store_keys_preserved empty_db); constructor.
Defined.

(** What one call adds to the entries of a user. *)
Lemma exec_reads (c : conn) (k : call) (u : Z) :
  get_user_progress (exec c k) u
  = (get_user_progress c u
     ++ match k with
        | UpdateProgress uid cid v => if Z.eqb uid u then [(cid, v)] else []
        | AddUser _ _ _ _ => []
        end)%list.
Proof.
  destruct k as [name ints gls lvl|uid cid v]; cbn [exec].
  - rewrite app_nil_r. unfold get_user_progress.
    destruct (add_user_cases c name ints gls lvl) as [->|[_ [_ ->]]];
      reflexivity.
  - apply get_user_progress_update.
Qed.

(** [get_user_progress] after a run of calls is what it was before,
    followed by one entry for each [update_progress] call of that user, in
    the order of the calls and with the values passed: nothing is dropped,
    merged or reordered, and registrations and other users' updates add
    nothing. *)
Theorem get_user_progress_after_run (ks : list call) (c : conn) (u : Z) :
  get_user_progress (exec_all c ks) u
  = (get_user_progress c u
     ++ flat_map (fun k =>
                    match k with
                    | UpdateProgress uid cid v =>
                        if Z.eqb uid u then [(cid, v)] else []
                    | AddUser _ _ _ _ => []
                    end) ks)%list.
Proof.
  revert c. induction ks as [|k ks IH]; intros c; simpl.
  - now rewrite app_nil_r.
  - rewrite IH, exec_reads. now rewrite <- app_assoc.
Qed.

Lemma exec_grows (c : conn) (k : call) :
  exists us ps,
    users (exec c k) = (users c ++ us)%list
    /\ progress (exec c k) = (progress c ++ ps)%list
    /\ List.length ps = match k with
                        | UpdateProgress _ _ _ => 1%nat
                        | AddUser _ _ _ _ => 0%nat
                        end.
Proof.
  destruct k as [name ints gls lvl|uid cid v]; cbn [exec].
  - destruct (add_user_cases c name ints gls lvl) as [->|[_ [-> ->]]].
    + exists [], []. now rewrite !app_nil_r.
    + exists [mk_user (next_rowid (users_seq c) (map user_id (users c)))
                      name ints gls lvl], [].
      now rewrite app_nil_r.
  - exists [], [mk_progress (next_rowid (progress_seq c)
                                        (map progress_id (progress c)))
                            uid cid v].
    rewrite app_nil_r.
    split; [reflexivity|]. split; [apply update_progress_appends|reflexivity].
Qed.

(** No call removes or changes a stored row: after any run of calls both
    tables begin with the rows they had, in the same order, and the
    progress table has gained exactly one row per [update_progress]
    call. *)
Theorem store_rows_persist (ks : list call) (c : conn) :
  exists us ps,
    users (exec_all c ks) = (users c ++ us)%list
    /\ progress (exec_all c ks) = (progress c ++ ps)%list
    /\ List.length ps
       = List.length (filter (fun k => match k with
                                       | UpdateProgress _ _ _ => true
                                       | AddUser _ _ _ _ => false
                                       end) ks).
Proof.
  revert c. induction ks as [|k ks IH]; intros c; simpl.
  - exists [], []. now rewrite !app_nil_r.
  - destruct (exec_grows c k) as [us1 [ps1 [Eu [Ep El]]]].
    destruct (IH (exec c k)) as [us2 [ps2 [Eu2 [Ep2 El2]]]].
    exists (us1 ++ us2)%list, (ps1 ++ ps2)%list.
    rewrite Eu2, Ep2, Eu, Ep, <- !app_assoc.
    split; [reflexivity|]. split; [reflexivity|].
    rewrite length_app, El, El2. now destruct k.
Qed.

End StoreInvariants.

(** * More on the ranking *)

Section TopScoresProps.
Import Ranker.
Local Open Scope R_scope.

Lemma StronglySorted_app_inv {A} (Rel : A -> A -> Prop) (l1 l2 : list A) :
  StronglySorted Rel (l1 ++ l2) ->
  forall x y, In x l1 -> In y l2 -> Rel x y.
Proof.
  induction l1 as [|a l1 IH]; simpl; intros Hs x y Hx Hy; [tauto|].
  inversion Hs as [|? ? Hs' Ha]; subst.
  destruct Hx as [->|Hx]; [|now apply IH].
  rewrite Forall_forall in Ha. apply Ha, in_or_app. now right.
Qed.

Lemma slice_to_prefix {A} (l : list A) (stop : Z) :
  exists k, Py.slice_to l stop = firstn k l.
Proof. unfold Py.slice_to. destruct (stop <? 0)%Z; eauto. Qed.

Lemma ranked_before_ge (p q : nat * R) : ranked_before p q -> snd q <= snd p.
Proof. unfold ranked_before. intros [?|[? _]]; lra. Qed.

(** The picked pairs are the best: the enumerated scores split into the
    pairs that [top_scores] picks and the rest, and no score of the rest is
    above a picked score, whatever [top_n] is. *)
Theorem top_scores_are_best (cosine_sim : list R) (top_n : Z) :
  exists rest,
    Permutation (top_scores cosine_sim top_n ++ rest)
                (Py.enumerate cosine_sim)
    /\ forall p q, In p (top_scores cosine_sim top_n) -> In q rest ->
                   snd q <= snd p.
Proof.
  unfold top_scores.
  set (ranking := Py.sorted_reverse snd Rltb (Py.enumerate cosine_sim)).
  destruct (slice_to_prefix ranking
              (Z.min top_n (Z.of_nat (List.length ranking)))) as [k ->].
  exists (skipn k ranking). split.
  - rewrite firstn_skipn. apply sorted_reverse_perm.
  - intros p q Hp Hq. apply ranked_before_ge.
    apply (StronglySorted_app_inv ranked_before (firstn k ranking)
                                  (skipn k ranking)); [|exact Hp|exact Hq].
    rewrite firstn_skipn.
    apply sorted_reverse_ranked, enumerate_index_sorted.
Qed.

Lemma enumerate_fst {A} (l : list A) :
  map fst (Py.enumerate l) = seq 0 (List.length l).
Proof.
  unfold Py.enumerate. generalize 0%nat.
  induction l as [|x l IH]; intros s; simpl; [reflexivity|].
  now rewrite IH.
Qed.

Lemma NoDup_firstn {A} (k : nat) (l : list A) : NoDup l -> NoDup (firstn k l).
Proof.
  intros H. rewrite <- (firstn_skipn k l) in H.
  now apply NoDup_app_remove_r in H.
Qed.

Lemma ranking_indices (cosine_sim : list R) :
  Permutation
    (map fst (Py.sorted_reverse snd Rltb (Py.enumerate cosine_sim)))
    (seq 0 (List.length cosine_sim)).
Proof.
  rewrite <- enumerate_fst. apply Permutation_map, sorted_reverse_perm.
Qed.

Lemma top_indices_NoDup (cosine_sim : list R) (top_n : Z) :
  NoDup (map fst (top_scores cosine_sim top_n)).
Proof.
  unfold top_scores.
  set (ranking := Py.sorted_reverse snd Rltb (Py.enumerate cosine_sim)).
  destruct (slice_to_prefix ranking
              (Z.min top_n (Z.of_nat (List.length ranking)))) as [k ->].
  rewrite <- firstn_map. apply NoDup_firstn.
  eapply Permutation_NoDup; [symmetry; apply ranking_indices|].
  apply seq_NoDup.
Qed.

(** The number of picked pairs for any integer [top_n]: a negative
    [top_n] cuts that many pairs off the end of the ranking. *)
Lemma top_scores_length_any (cosine_sim : list R) (top_n : Z) :
  Z.of_nat (List.length (top_scores cosine_sim top_n))
  = (if top_n <? 0
     then Z.max 0 (Z.of_nat (List.length cosine_sim) + top_n)
     else Z.min top_n (Z.of_nat (List.length cosine_sim)))%Z.
Proof.
  destruct (Z.ltb_spec top_n 0) as [Hneg|Hpos].
  - unfold top_scores, Py.slice_to.
    rewrite sorted_reverse_length, enumerate_length.
    set (n := Z.of_nat (List.length cosine_sim)).
    replace (Z.min top_n n) with top_n by lia.
    destruct (Z.ltb_spec top_n 0); [|lia].
    rewrite length_firstn, sorted_reverse_length, enumerate_length.
    fold n. lia.
  - now apply top_scores_length.
Qed.

(** When [top_n] is at least the number of scores, all pairs are picked. *)
Lemma top_scores_all (cosine_sim : list R) (top_n : Z) :
  (Z.of_nat (List.length cosine_sim) <= top_n)%Z ->
  top_scores cosine_sim top_n
  = Py.sorted_reverse snd Rltb (Py.enumerate cosine_sim).
Proof.
  intros H. unfold top_scores.
  rewrite slice_to_firstn by lia.
  apply firstn_all2.
  rewrite sorted_reverse_length, enumerate_length. lia.
Qed.

End TopScoresProps.

Section RecommendMore.
Import Catalog Ranker.
Local Open Scope R_scope.

(** [recommend_courses] takes any integer [top_n]: past the check of the
    query, and on an aligned vector space, it raises nothing and returns
    [min top_n count] rows for [0 <= top_n], and for a negative [top_n] the
    ranking without its last [- top_n] rows ([max 0 (count + top_n)]
    rows). *)
Theorem recommend_courses_any_top_n
        (q : string) (model : tfidf_model) (Y : matrix) (df : list course)
        (top_n : Z)
        (Hquery : Py.falsy q = false)
        (Hvocab : transform model q <> [])
        (Hdim : Forall (fun y => List.length y
                                 = List.length (transform model q)) Y)
        (Hrows : List.length Y = List.length df) :
  exists out,
    recommend_courses q model Y df top_n = Ok out
    /\ Z.of_nat (List.length out)
       = (if top_n <? 0
          then Z.max 0 (Z.of_nat (List.length df) + top_n)
          else Z.min top_n (Z.of_nat (List.length df)))%Z.
Proof.
  destruct df as [|c0 df'].
  - exists []. unfold recommend_courses. simpl. rewrite orb_true_r.
    split; [reflexivity|]. simpl. destruct (top_n <? 0)%Z eqn:E; [|lia].
    apply Z.ltb_lt in E. lia.
  - assert (Hguard : Py.falsy q || Nat.eqb (List.length (c0 :: df')) 0 = false)
      by (rewrite Hquery; reflexivity).
    destruct (recommend_courses_aligned q model Y (c0 :: df') top_n
                Hguard Hvocab Hdim Hrows) as [cs [E F]].
    exists (map (fun c => named (row c)) cs). split; [exact E|].
    rewrite length_map, (Forall2_length F), length_map.
    rewrite top_scores_length_any, length_map, Hrows. reflexivity.
Qed.

Lemma recommend_courses_any_top_n_witness :
  exists out,
    recommend_courses "finance" Fixture.one_term_model [[1]; [1]]
                      Fixture.two_courses (-1)
    = Ok out
    /\ Z.of_nat (List.length out)
       = (if (-1) <? 0
          then Z.max 0 (Z.of_nat (List.length Fixture.two_courses) + (-1))
          else Z.min (-1) (Z.of_nat (List.length Fixture.two_courses)))%Z.
Proof.
  apply (recommend_courses_any_top_n "finance" Fixture.one_term_model
           [[1]; [1]] Fixture.two_courses (-1)).
  - reflexivity.
  - discriminate.
  - repeat constructor.
  - reflexivity.
Defined.

Lemma map_nth_seq {A} (l : list A) (d : A) :
  map (fun i => nth i l d) (seq 0 (List.length l)) = l.
Proof.
  induction l as [|x l IH]; simpl; [reflexivity|].
  f_equal. rewrite <- seq_shift, map_map. exact IH.
Qed.

Lemma rows_at_indices (df cs : list course) (idxs : list nat) (d : course) :
  Forall2 (fun c i => nth_error df i = Some c) cs idxs ->
  cs = map (fun i => nth i df d) idxs.
Proof.
  induction 1 as [|c i cs idxs Hc _ IH]; simpl; [reflexivity|].
  f_equal; [|exact IH]. symmetry. now apply nth_error_nth.
Qed.

Lemma rows_at_all_indices (df cs : list course) (idxs : list nat) :
  Forall2 (fun c i => nth_error df i = Some c) cs idxs ->
  Permutation idxs (seq 0 (List.length df)) ->
  Permutation cs df.
Proof.
  intros F P. destruct df as [|d df'].
  - simpl in P. symmetry in P. apply Permutation_nil in P. subst idxs.
    inversion F. constructor.
  - rewrite (rows_at_indices _ _ _ d F).
    apply Permutation_trans
      with (map (fun i => nth i (d :: df') d)
                (seq 0 (List.length (d :: df')))).
    + now apply Permutation_map.
    + now rewrite map_nth_seq.
Qed.

(** No course is returned twice: the rows of the result are the courses at
    pairwise distinct corpus indices; and with [top_n] at least the number
    of courses, the result is a rearrangement of all the courses, each one
    once. *)
Theorem recommend_courses_no_repeats
        (q : string) (model : tfidf_model) (Y : matrix) (df : list course)
        (top_n : Z)
        (Hquery : Py.falsy q = false)
        (Hvocab : transform model q <> [])
        (Hdim : Forall (fun y => List.length y
                                 = List.length (transform model q)) Y)
        (Hrows : List.length Y = List.length df) :
  exists out idxs,
    recommend_courses q model Y df top_n = Ok out
    /\ NoDup idxs
    /\ Forall2 (fun o i => exists c, nth_error df i = Some c
                                     /\ o = named (row c)) out idxs
    /\ ((Z.of_nat (List.length df) <= top_n)%Z ->
        Permutation out (map (fun c => named (row c)) df)).
Proof.
  destruct df as [|c0 df'].
  - exists [], []. unfold recommend_courses. simpl. rewrite orb_true_r.
    repeat split; constructor.
  - assert (Hguard : Py.falsy q || Nat.eqb (List.length (c0 :: df')) 0 = false)
      by (rewrite Hquery; reflexivity).
    destruct (recommend_courses_aligned q model Y (c0 :: df') top_n
                Hguard Hvocab Hdim Hrows) as [cs [E F]].
    set (sims := map _ Y) in F.
    exists (map (fun c => named (row c)) cs), (map fst (top_scores sims top_n)).
    split; [exact E|]. split; [apply top_indices_NoDup|]. split.
    + clear E. induction F as [|c i cs idxs Hc _ IH]; simpl; constructor; eauto.
    + intros Hall. apply Permutation_map.
      apply (rows_at_all_indices _ _ _ F).
      assert (Hn : List.length sims = List.length (c0 :: df'))
        by (subst sims; now rewrite length_map).
      rewrite top_scores_all by (rewrite Hn; exact Hall).
      rewrite <- Hn. apply ranking_indices.
Qed.

Lemma recommend_courses_no_repeats_witness :
  exists out idxs,
    recommend_courses "finance" Fixture.one_term_model [[1]; [1]]
                      Fixture.two_courses 5
    = Ok out
    /\ NoDup idxs
    /\ Forall2 (fun o i => exists c, nth_error Fixture.two_courses i = Some c
                                     /\ o = named (row c)) out idxs
    /\ ((Z.of_nat (List.length Fixture.two_courses) <= 5)%Z ->
        Permutation out (map (fun c => named (row c)) Fixture.two_courses)).
Proof.
  apply (recommend_courses_no_repeats "finance" Fixture.one_term_model
           [[1]; [1]] Fixture.two_courses 5).
  - reflexivity.
  - discriminate.
  - repeat constructor.
  - reflexivity.
Defined.

End RecommendMore.

Section UnknownTerms.
Import Catalog Ranker.
Local Open Scope R_scope.

Lemma dot_zero_l (u v : vector) :
  Forall (fun x => x = 0) u -> dot u v = 0.
Proof.
  intros Hu. revert v.
  induction Hu as [|x u Hx _ IH]; intros v; simpl; [reflexivity|].
  destruct v as [|y v]; [reflexivity|]. rewrite IH, Hx. lra.
Qed.

Lemma normalize_zero (u : vector) :
  Forall (fun x => x = 0) u -> Forall (fun x => x = 0) (normalize u).
Proof.
  intros Hu. unfold normalize. apply Forall_map.
  eapply Forall_impl; [|exact Hu].
  intros x ->. unfold Rdiv. apply Rmult_0_l.
Qed.

Lemma tied_index_order (l : list (nat * R)) (s : R) :
  StronglySorted (fun p q => (fst p < fst q)%nat) l ->
  Forall (fun p => snd p = s) l ->
  StronglySorted ranked_before l.
Proof.
  induction 1 as [|p l Hl IH Hp]; intros Hs; [constructor|].
  inversion Hs as [|? ? Hps Hls]; subst.
  constructor; [now apply IH|].
  rewrite Forall_forall in Hp, Hls |- *. intros q Hq.
  right. split; [rewrite (Hls q Hq); reflexivity|now apply Hp].
Qed.

(** Scores that are all equal leave the corpus order. *)
Lemma ranking_of_ties (cosine_sim : list R) (s : R) :
  Forall (fun x => x = s) cosine_sim ->
  Py.sorted_reverse snd Rltb (Py.enumerate cosine_sim)
  = Py.enumerate cosine_sim.
Proof.
  intros Hs. apply ranked_unique.
  - apply sorted_reverse_ranked, enumerate_index_sorted.
  - apply tied_index_order with (s := s); [apply enumerate_index_sorted|].
    apply Forall_forall. intros [i x] Hin. simpl.
    apply enumerate_In in Hin. rewrite Forall_forall in Hs.
    apply Hs. eapply nth_error_In; eauto.
  - apply sorted_reverse_perm.
Qed.

Lemma iloc_prefix (pre df : list course) (k : nat) :
  iloc (pre ++ df) (firstn k (seq (List.length pre) (List.length df)))
  = Ok (firstn k df).
Proof.
  revert pre k. induction df as [|c df IH]; intros pre k.
  - simpl. now rewrite !firstn_nil.
  - destruct k as [|k]; [reflexivity|].
    cbn [List.length seq firstn iloc].
    rewrite nth_error_app2, Nat.sub_diag by lia. cbn [nth_error].
    replace (pre ++ c :: df)%list with ((pre ++ [c]) ++ df)%list
      by (now rewrite <- app_assoc).
    replace (S (List.length pre)) with (List.length (pre ++ [c])%list)
      by (rewrite length_app; simpl; lia).
    now rewrite IH.
Qed.

(** A query without a term of the vocabulary is not refused: when the query
    is not the empty string and its projection is the zero row, every
    score is 0 and [recommend_courses] returns the first [top_n] courses of
    the frame, in the order of the frame (all of them when there are
    fewer). *)
Theorem recommend_courses_unknown_terms
        (q : string) (model : tfidf_model) (Y : matrix) (df : list course)
        (top_n : Z)
        (Hquery : Py.falsy q = false)
        (Hvocab : transform model q <> [])
        (Hzero : Forall (fun w => w = 0) (transform model q))
        (Hdim : Forall (fun y => List.length y
                                 = List.length (transform model q)) Y)
        (Hrows : List.length Y = List.length df)
        (Htop : (0 <= top_n)%Z) :
  recommend_courses q model Y df top_n
  = Ok (map (fun c => named (row c)) (firstn (Z.to_nat top_n) df)).
Proof.
  destruct df as [|c0 df'].
  { unfold recommend_courses. simpl. rewrite orb_true_r.
    now rewrite firstn_nil. }
  assert (HY : Y <> []) by (intros ->; discriminate Hrows).
  unfold recommend_courses. rewrite Hquery. cbn [List.length Nat.eqb orb].
  rewrite cosine_similarity_ok by assumption. cbn [bind].
  set (sims := map _ Y).
  assert (Hsims : Forall (fun x => x = 0) sims).
  { subst sims. apply Forall_map, Forall_forall. intros y _.
    apply dot_zero_l. now apply normalize_zero. }
  assert (Hn : List.length sims = List.length (c0 :: df'))
    by (subst sims; now rewrite length_map).
  unfold top_scores. rewrite (ranking_of_ties sims 0 Hsims).
  rewrite slice_to_firstn by (rewrite enumerate_length; lia).
  rewrite <- firstn_map, enumerate_fst, enumerate_length, Hn.
  rewrite (iloc_prefix [] (c0 :: df')). cbn [bind]. do 2 f_equal.
  set (n := List.length (c0 :: df')).
  destruct (Z_le_gt_dec top_n (Z.of_nat n)) as [Hle|Hgt].
  - f_equal. lia.
  - rewrite !firstn_all2; [reflexivity|lia|lia].
Qed.

Lemma recommend_courses_unknown_terms_witness :
  recommend_courses " " Fixture.one_term_model [[1]; [1]]
                    Fixture.two_courses 1
  = Ok (map (fun c => named (row c)) (firstn (Z.to_nat 1) Fixture.two_courses)).
Proof.
  apply (recommend_courses_unknown_terms " " Fixture.one_term_model
           [[1]; [1]] Fixture.two_courses 1).
  - reflexivity.
  - discriminate.
  - repeat constructor.
  - repeat constructor.
  - reflexivity.
  - lia.
Defined.

End UnknownTerms.

Section CosineMore.
Import Ranker.
Local Open Scope R_scope.






End CosineMore.

(** * More on the Recommendations page *)

Section BlankInput.
Import Catalog Ranker App Listing.

Lemma all_space_app (a b : string) :
  all_space (a ++ b) = all_space a && all_space b.
Proof.
  induction a as [|c a IH]; simpl; [reflexivity|].
  now rewrite IH, andb_assoc.
Qed.

Lemma lstrip_blank (s : string) : Py.falsy (Py.lstrip s) = all_space s.
Proof.
  induction s as [|c s IH]; simpl; [reflexivity|].
  destruct (Py.isspace c); [exact IH|reflexivity].
Qed.

Lemma rstrip_blank (s : string) : Py.falsy (Py.rstrip s) = all_space s.
Proof.
  induction s as [|c s IH]; simpl; [reflexivity|].
  destruct (Py.rstrip s) as [|d r]; simpl in *; rewrite <- IH.
  - now destruct (Py.isspace c).
  - now rewrite andb_false_r.
Qed.

Lemma all_space_lstrip (s : string) : all_space (Py.lstrip s) = all_space s.
Proof.
  induction s as [|c s IH]; simpl; [reflexivity|].
  destruct (Py.isspace c) eqn:E; simpl; [exact IH|now rewrite E].
Qed.

(** [strip] leaves nothing exactly of the texts that are all whitespace. *)
Lemma strip_blank (s : string) : Py.falsy (Py.strip s) = all_space s.
Proof. unfold Py.strip. now rewrite rstrip_blank, all_space_lstrip. Qed.

Lemma all_space_rstrip (s : string) : all_space (Py.rstrip s) = all_space s.
Proof.
  induction s as [|c s IH]; [reflexivity|].
  pose proof (rstrip_blank s) as Hb. cbn [Py.rstrip all_space].
  destruct (Py.rstrip s) as [|d r].
  - simpl in Hb. rewrite <- Hb.
    destruct (Py.isspace c) eqn:E; simpl; [reflexivity|now rewrite E].
  - cbn [all_space] in *. now rewrite IH.
Qed.

Lemma all_space_strip (s : string) : all_space (Py.strip s) = all_space s.
Proof. unfold Py.strip. now rewrite all_space_rstrip, all_space_lstrip. Qed.

Lemma combined_input_blank (selected_category user_input_keywords : string) :
  Py.falsy (Py.strip (combined_input selected_category user_input_keywords))
  = all_space user_input_keywords
    && (String.eqb selected_category "All" || all_space selected_category).
Proof.
  rewrite strip_blank. unfold combined_input.
  rewrite all_space_app, all_space_strip.
  destruct (String.eqb selected_category "All"); simpl.
  - now rewrite andb_true_r.
  - rewrite all_space_app. simpl.
    change (Py.isspace " ") with true. simpl.
    rewrite andb_true_r. apply andb_comm.
Qed.

(** When the page asks for input: pressing the button shows the warning
    "Please select a category or enter keywords" exactly when there are
    courses to rank, the keywords are all whitespace (or none), and the
    category is "All" or itself all whitespace.  So a selected category
    with a visible character never needs keywords. *)
Theorem recommendations_page_asks_for_input
        (V : vectorizer) (df : list course)
        (selected_category user_input_keywords : string) :
  recommendations_page V df selected_category user_input_keywords true
  = WarnNoInput
  <-> final_filtered_df df selected_category <> []
      /\ all_space user_input_keywords = true
      /\ (selected_category = "All" \/ all_space selected_category = true).
Proof.
  unfold recommendations_page.
  pose proof (combined_input_blank selected_category user_input_keywords) as Hb.
  destruct (final_filtered_df df selected_category) as [|c0 rest] eqn:Ef.
  { cbn [is_empty negb]. split; [discriminate|]. intros [H _]. congruence. }
  cbn [is_empty negb]. rewrite Hb.
  destruct (all_space user_input_keywords); cbn [andb].
  - destruct (String.eqb_spec selected_category "All") as [->|Hne];
      cbn [orb].
    + split; [|reflexivity]. intros _. split; [discriminate|]. auto.
    + destruct (all_space selected_category).
      * split; [|reflexivity]. intros _. split; [discriminate|]. auto.
      * split; [|intros [_ [_ [?|?]]]; [contradiction|discriminate]].
        destruct (bind _ _) as [recs|e].
        -- destruct (negb (is_empty recs)); discriminate.
        -- destruct e; discriminate.
  - split; [|intros [_ [? _]]; discriminate].
    destruct (bind _ _) as [recs|e].
    + destruct (negb (is_empty recs)); discriminate.
    + destruct e; discriminate.
Qed.

End BlankInput.

Section PageOutcomes.
Import Catalog Ranker App Listing Session.

Lemma strip_nonblank_nonempty (s : string) :
  Py.falsy (Py.strip s) = false -> Py.falsy s = false.
Proof. destruct s; [discriminate|reflexivity]. Qed.

Lemma one_term_vectorizer_aligned : fits_aligned Fixture.one_term_vectorizer.
Proof.
  intros corpus m Y. unfold Fixture.one_term_vectorizer. simpl.
  destruct (forallb Fixture.blank corpus); [discriminate|].
  intros H. injection H as <- <-.
  split; [apply length_map|]. intros q. split; [discriminate|].
  apply Forall_map, Forall_forall. reflexivity.
Qed.

(** With a vectorizer whose fit is aligned, a press of the button never
    ends in "No recommendations found": whenever the page gets as far as
    ranking, it shows [min 5 count] courses of the filtered frame (at least
    one), also for keywords that match nothing. *)
Theorem recommendations_page_always_recommends
        (V : vectorizer) (df : list course)
        (selected_category user_input_keywords : string)
        (HV : fits_aligned V) :
  recommendations_page V df selected_category user_input_keywords true
  <> WarnNoRecommendations
  /\ forall recs,
       recommendations_page V df selected_category user_input_keywords true
       = Recommended recs ->
       recs <> []
       /\ Z.of_nat (List.length recs)
          = Z.min 5 (Z.of_nat (List.length
                                 (final_filtered_df df selected_category))).
Proof.
  unfold recommendations_page.
  set (filtered := final_filtered_df df selected_category).
  set (combined := combined_input selected_category user_input_keywords).
  destruct filtered as [|c0 rest] eqn:Ef;
    [split; [discriminate|intros recs; discriminate]|].
  cbn [is_empty negb].
  destruct (Py.falsy (Py.strip combined)) eqn:Eb;
    [split; [discriminate|intros recs; discriminate]|].
  destruct (fit_transform V (map features (c0 :: rest))) as [[m Y]|e] eqn:Efit;
    cbn [bind fst snd];
    [|destruct e; split; try discriminate; intros recs; discriminate].
  destruct (HV _ _ _ Efit) as [Hrows Hq].
  rewrite length_map in Hrows.
  destruct (Hq combined) as [Hvocab Hdim].
  assert (Hguard : Py.falsy combined || Nat.eqb (List.length (c0 :: rest)) 0
                   = false)
    by (rewrite (strip_nonblank_nonempty _ Eb); reflexivity).
  destruct (recommend_courses_aligned combined m Y (c0 :: rest) 5
              Hguard Hvocab Hdim Hrows) as [cs [E F]].
  rewrite E.
  assert (Hlen : Z.of_nat (List.length (map (fun c => named (row c)) cs))
                 = Z.min 5 (Z.of_nat (List.length (c0 :: rest)))).
  { rewrite length_map, (Forall2_length F), length_map.
    rewrite top_scores_length by lia. rewrite length_map, Hrows. reflexivity. }
  destruct (map (fun c => named (row c)) cs) as [|r recs'] eqn:Erecs.
  { simpl in Hlen. lia. }
  cbn [is_empty negb]. split; [discriminate|].
  intros recs Hrec. injection Hrec as <-.
  split; [discriminate|exact Hlen].
Qed.

Lemma recommendations_page_always_recommends_witness :
  recommendations_page Fixture.one_term_vectorizer Fixture.two_courses
                       "All" "quantum chemistry" true
  <> WarnNoRecommendations.
Proof.
  apply (recommendations_page_always_recommends
           Fixture.one_term_vectorizer Fixture.two_courses
           "All" "quantum chemistry").
  exact one_term_vectorizer_aligned.
Defined.

Lemma page_warns_no_courses (V : vectorizer) (df : list course)
      (selected_category user_input_keywords : string) :
  recommendations_page V df selected_category user_input_keywords true
  = WarnNoCourses
  <-> final_filtered_df df selected_category = [].
Proof.
  unfold recommendations_page.
  destruct (final_filtered_df df selected_category) as [|c0 rest];
    cbn [is_empty negb]; [tauto|].
  split; [|discriminate].
  destruct (Py.falsy _); [discriminate|].
  destruct (bind _ _) as [recs|e].
  - destruct (negb (is_empty recs)); discriminate.
  - destruct e; discriminate.
Qed.

End PageOutcomes.

(** * The category listing *)

Section AscendingProps.
Context {A : Type} (ltb : A -> A -> bool).
Hypothesis ltb_asym : forall a b, ltb a b = true -> ltb b a = false.
Hypothesis ltb_trans :
  forall a b c, ltb a b = true -> ltb b c = true -> ltb a c = true.
Hypothesis ltb_total :
  forall a b, ltb a b = false -> ltb b a = false -> a = b.

Lemma insert_asc_perm (x : A) (l : list A) :
  Permutation (Listing.insert_asc ltb x l) (x :: l).
Proof.
  induction l as [|y l IH]; simpl; [reflexivity|].
  destruct (ltb y x); [|reflexivity].
  rewrite IH. apply perm_swap.
Qed.

Lemma sorted_perm (l : list A) : Permutation (Listing.sorted ltb l) l.
Proof.
  induction l as [|x l IH]; simpl; [reflexivity|].
  rewrite insert_asc_perm. now constructor.
Qed.

Lemma not_above_trans (a b c : A) :
  ltb b a = false -> ltb c b = false -> ltb c a = false.
Proof.
  intros Hab Hbc. destruct (ltb c a) eqn:Hca; [|reflexivity].
  destruct (ltb a b) eqn:Hlt.
  - rewrite (ltb_trans c a b Hca Hlt) in Hbc. discriminate.
  - rewrite (ltb_total a b Hlt Hab) in Hca. congruence.
Qed.

Lemma insert_asc_sorted (x : A) (l : list A) :
  StronglySorted (fun a b => ltb b a = false) l ->
  StronglySorted (fun a b => ltb b a = false) (Listing.insert_asc ltb x l).
Proof.
  induction 1 as [|y l Hl IH Hy]; simpl; [repeat constructor|].
  destruct (ltb y x) eqn:E.
  - constructor; [exact IH|].
    eapply Permutation_Forall; [symmetry; apply insert_asc_perm|].
    constructor; [now apply ltb_asym|exact Hy].
  - constructor; [now constructor|].
    constructor; [exact E|].
    eapply Forall_impl; [|exact Hy].
    intros z Hz. now apply not_above_trans with (b := y).
Qed.

Lemma sorted_ascending (l : list A) :
  StronglySorted (fun a b => ltb b a = false) (Listing.sorted ltb l).
Proof.
  induction l as [|x l IH]; simpl; [constructor|].
  now apply insert_asc_sorted.
Qed.

(** Without repeated values the order is strict. *)
Lemma sorted_strictly (l : list A) :
  NoDup l -> StronglySorted (fun a b => ltb a b = true) (Listing.sorted ltb l).
Proof.
  intros Hnd.
  assert (Hnd' : NoDup (Listing.sorted ltb l))
    by (eapply Permutation_NoDup; [symmetry; apply sorted_perm|exact Hnd]).
  pose proof (sorted_ascending l) as Hs.
  induction Hs as [|y t Ht IH Hy]; [constructor|].
  inversion Hnd' as [|? ? Hnin Hnd'']; subst.
  constructor; [now apply IH|].
  rewrite Forall_forall in Hy |- *. intros z Hz.
  destruct (ltb y z) eqn:E; [reflexivity|].
  exfalso. apply Hnin. rewrite (ltb_total y z E (Hy z Hz)). exact Hz.
Qed.

End AscendingProps.

Section UniqueProps.
Import Listing.

Lemma unique_from_In (seen l : list string) (x : string) :
  In x (unique_from seen l) <-> In x l /\ ~ In x seen.
Proof.
  revert seen. induction l as [|y l IH]; intros seen; simpl; [tauto|].
  destruct (existsb (String.eqb y) seen) eqn:E.
  - apply existsb_exists in E. destruct E as [z [Hz Hyz]].
    apply String.eqb_eq in Hyz. subst z.
    rewrite IH. split; [tauto|].
    intros [[->|Hx] Hn]; [contradiction|tauto].
  - assert (Hy : ~ In y seen).
    { intros Hin. assert (existsb (String.eqb y) seen = true).
      { apply existsb_exists. exists y. split; [exact Hin|apply String.eqb_refl]. }
      congruence. }
    simpl. rewrite IH. simpl. split.
    + intros [->|[Hx Hn]]; [tauto|]. split; [tauto|]. intros Hs. apply Hn. tauto.
    + intros [[->|Hx] Hn]; [tauto|].
      destruct (string_dec y x) as [->|Hne]; [tauto|].
      right. split; [exact Hx|]. intros [?|?]; tauto.
Qed.

Lemma unique_from_NoDup (seen l : list string) : NoDup (unique_from seen l).
Proof.
  revert seen. induction l as [|y l IH]; intros seen; simpl; [constructor|].
  destruct (existsb (String.eqb y) seen); [apply IH|].
  constructor; [|apply IH].
  rewrite unique_from_In. simpl. tauto.
Qed.

Lemma unique_In (l : list string) (x : string) : In x (unique l) <-> In x l.
Proof. unfold unique. rewrite unique_from_In. simpl. tauto. Qed.

Lemma unique_NoDup (l : list string) : NoDup (unique l).
Proof. apply unique_from_NoDup. Qed.

End UniqueProps.

Section CategoriesProps.
Import Catalog App Listing.

Lemma string_ltb_lt (a b : string) :
  String.ltb a b = true <-> OrderedTypeEx.String_as_OT.lt a b.
Proof.
  rewrite <- OrderedTypeEx.String_as_OT.cmp_lt.
  unfold String.ltb, OrderedTypeEx.String_as_OT.cmp.
  destruct (String.compare a b); split; congruence.
Qed.

Lemma string_ltb_asym (a b : string) :
  String.ltb a b = true -> String.ltb b a = false.
Proof.
  unfold String.ltb. rewrite (String.compare_antisym b a).
  destruct (String.compare a b); simpl; congruence.
Qed.

Lemma string_ltb_trans (a b c : string) :
  String.ltb a b = true -> String.ltb b c = true -> String.ltb a c = true.
Proof.
  rewrite !string_ltb_lt. apply OrderedTypeEx.String_as_OT.lt_trans.
Qed.

Lemma string_ltb_total (a b : string) :
  String.ltb a b = false -> String.ltb b a = false -> a = b.
Proof.
  unfold String.ltb. rewrite (String.compare_antisym b a).
  destruct (String.compare a b) eqn:E; simpl; try discriminate.
  intros _ _. now apply String.compare_eq_iff.
Qed.

Lemma column_texts_In (col : fields cell -> cell) (df : list course)
      (s : string) :
  In s (column_texts col df)
  <-> exists c, In c df /\ col (named (row c)) = Some s.
Proof.
  unfold column_texts. rewrite in_flat_map. split.
  - intros [c [Hc Hs]]. exists c. split; [exact Hc|].
    destruct (col (named (row c))); simpl in Hs; [|tauto].
    destruct Hs as [->|[]]. reflexivity.
  - intros [c [Hc Hs]]. exists c. split; [exact Hc|].
    rewrite Hs. now left.
Qed.

(** The five required cells of a loaded row are text. *)
Lemma loaded_rows_complete (f : file) (df : list course) :
  load_course_data f = Some df ->
  Forall (fun c => existsb isna (subset_cells (row c)) = false) df.
Proof.
  destruct f as [| |lines]; try discriminate.
  rewrite load_course_data_table. intros H. injection H as <-.
  apply Forall_map, Forall_forall. intros l Hl. cbn [row].
  apply filter_In in Hl. destruct Hl as [_ Hk].
  apply negb_true_iff in Hk. now rewrite existsb_isna_subset.
Qed.

Lemma loaded_category (f : file) (df : list course) (c : course) :
  load_course_data f = Some df -> In c df ->
  exists s, Category (named (row c)) = Some s.
Proof.
  intros Hload Hc. pose proof (loaded_rows_complete f df Hload) as H.
  rewrite Forall_forall in H. specialize (H c Hc).
  unfold subset_cells in H. simpl in H.
  destruct (Category (named (row c))) as [s|]; [eauto|].
  simpl in H. rewrite !orb_true_r in H. discriminate.
Qed.

Lemma filtered_has (df : list course) (c : course) (s : string) :
  In c df -> Category (named (row c)) = Some s ->
  final_filtered_df df s <> [].
Proof.
  intros Hc Hs. unfold final_filtered_df.
  destruct (negb (String.eqb s "All")).
  - intros E.
    assert (Hin : In c (filter (fun c => cell_is (Category (named (row c))) s)
                               df)).
    { apply filter_In. split; [exact Hc|].
      unfold cell_is. rewrite Hs. apply String.eqb_refl. }
    rewrite E in Hin. exact Hin.
  - intros E. rewrite E in Hc. exact Hc.
Qed.

(** The category selectbox of a loaded catalog: after "All" it lists the
    categories of the courses in strictly ascending order (so each once);
    every course's category is listed and every listed category has a
    course; hence, on a catalog that is not empty, no choice of the
    selectbox ends in "No courses match your selected category". *)
Theorem categories_listing (f : file) (df : list course)
        (Hload : load_course_data f = Some df) :
  exists cats,
    categories df = "All" :: cats
    /\ StronglySorted (fun a b => String.ltb a b = true) cats
    /\ (forall c, In c df ->
          exists s, Category (named (row c)) = Some s /\ In s cats)
    /\ (forall s, In s cats ->
          exists c, In c df /\ Category (named (row c)) = Some s)
    /\ (forall V kw sel,
          df <> [] -> In sel (categories df) ->
          recommendations_page V df sel kw true <> WarnNoCourses).
Proof.
  set (cats := sorted String.ltb (unique (column_texts Category df))).
  assert (Hin : forall s, In s cats
                          <-> exists c, In c df
                                        /\ Category (named (row c)) = Some s).
  { intros s. rewrite <- column_texts_In, <- (unique_In (column_texts _ _)).
    subst cats.
    split; apply Permutation_in; [|symmetry]; apply sorted_perm. }
  exists cats. split; [reflexivity|]. split; [|split; [|split]].
  - apply sorted_strictly.
    + exact string_ltb_asym.
    + exact string_ltb_trans.
    + exact string_ltb_total.
    + apply unique_NoDup.
  - intros c Hc. destruct (loaded_category f df c Hload Hc) as [s Hs].
    exists s. split; [exact Hs|]. apply Hin. eauto.
  - intros s Hs. now apply Hin.
  - intros V kw sel Hne Hsel Hwarn.
    apply page_warns_no_courses in Hwarn.
    destruct Hsel as [<-|Hsel].
    + unfold final_filtered_df in Hwarn. simpl in Hwarn. congruence.
    + apply Hin in Hsel. destruct Hsel as [c [Hc Hs]].
      exact (filtered_has df c sel Hc Hs Hwarn).
Qed.

Lemma categories_listing_witness :
  exists cats,
    categories Fixture.two_courses = "All" :: cats
    /\ StronglySorted (fun a b => String.ltb a b = true) cats
    /\ (forall c, In c Fixture.two_courses ->
          exists s, Category (named (row c)) = Some s /\ In s cats)
    /\ (forall s, In s cats ->
          exists c, In c Fixture.two_courses
                    /\ Category (named (row c)) = Some s)
    /\ (forall V kw sel,
          Fixture.two_courses <> [] -> In sel (categories Fixture.two_courses) ->
          recommendations_page V Fixture.two_courses sel kw true
          <> WarnNoCourses).
Proof.
  apply (categories_listing
           (Table [Fixture.intro_ml; Fixture.finance_101])).
  reflexivity.
Defined.

End CategoriesProps.

(** * The Profile and Progress pages *)

Section PageEffects.
Import Catalog App Listing Session.

Lemma update_progress_changes (c : Store.conn) (uid : Z) (cid : string)
      (v : Q) :
  Store.update_progress c uid cid v <> c.
Proof.
  intros E. apply (f_equal (fun x => List.length (Store.progress x))) in E.
  rewrite update_progress_appends, length_app in E. simpl in E. lia.
Qed.

(** The Progress page writes exactly when a user with a non-zero
    identifier is signed in, a course other than the placeholder is
    selected and the button is pressed; it then adds one record, of that
    user and course with the slider's percentage over 100, and leaves the
    store unchanged in every other case. *)
Theorem progress_page_effect
        (conn : Store.conn) (current_user_id : option Z)
        (course_id_to_update : string) (completion_percentage : Z)
        (clicked : bool) :
  (progress_page conn current_user_id course_id_to_update
                 completion_percentage clicked <> conn
   <-> exists uid, current_user_id = Some uid /\ uid <> 0
                   /\ course_id_to_update <> "Select a Course"
                   /\ clicked = true)
  /\ (forall uid,
        current_user_id = Some uid -> uid <> 0 ->
        course_id_to_update <> "Select a Course" -> clicked = true ->
        Store.users (progress_page conn current_user_id course_id_to_update
                                   completion_percentage clicked)
        = Store.users conn
        /\ Store.get_user_progress
             (progress_page conn current_user_id course_id_to_update
                            completion_percentage clicked) uid
           = (Store.get_user_progress conn uid
              ++ [(course_id_to_update,
                   (inject_Z completion_percentage / 100)%Q)])%list).
Proof.
  unfold progress_page. split.
  - destruct current_user_id as [uid|].
    + destruct (Z.eqb_spec uid 0) as [->|Hz].
      * split; [congruence|]. intros [u [E [Hu _]]]. congruence.
      * destruct (String.eqb_spec course_id_to_update "Select a Course")
          as [->|Hk]; cbn [negb].
        -- split; [congruence|]. intros [u [_ [_ [Hc _]]]]. congruence.
        -- destruct clicked.
           ++ split; [eauto 6|]. intros _. apply update_progress_changes.
           ++ split; [congruence|]. intros [u [_ [_ [_ Hc]]]]. discriminate.
    + split; [congruence|]. intros [u [E _]]. discriminate.
  - intros uid -> Hz Hk ->.
    destruct (Z.eqb_spec uid 0); [contradiction|].
    destruct (String.eqb_spec course_id_to_update "Select a Course");
      [contradiction|]. cbn [negb].
    split; [reflexivity|].
    rewrite get_user_progress_update, Z.eqb_refl. reflexivity.
Qed.

End PageEffects.

Section SessionProps.
Import Catalog App Listing Session.

Lemma session_ok_grows (c c' : Store.conn) (ss : session_state)
      (us : list Store.user_row) :
  Store.users c' = (Store.users c ++ us)%list ->
  session_ok c ss -> session_ok c' ss.
Proof.
  unfold session_ok. intros E H.
  destruct (current_user_id ss) as [uid|]; [|exact I].
  destruct H as [name [ints [gls [lvl [Hs Hin]]]]].
  exists name, ints, gls, lvl. split; [exact Hs|].
  rewrite E. apply in_or_app. now left.
Qed.

Lemma progress_of_users_grows (c c' : Store.conn)
      (us : list Store.user_row) :
  Store.users c' = (Store.users c ++ us)%list ->
  Store.progress c' = Store.progress c ->
  progress_of_users c -> progress_of_users c'.
Proof.
  unfold progress_of_users. intros Eu Ep H. rewrite Ep.
  eapply Forall_impl; [|exact H].
  intros r [u [Hu Hid]]. exists u. split; [|exact Hid].
  rewrite Eu. apply in_or_app. now left.
Qed.

Lemma register_form_cases (c : Store.conn) (n ints gls lvl : string) :
  register_form c n ints gls lvl = (c, None)
  \/ exists uid,
       register_form c n ints gls lvl
       = (fst (Store.add_user c n ints gls lvl), Some uid)
       /\ Store.users (fst (Store.add_user c n ints gls lvl))
          = (Store.users c ++ [Store.mk_user uid n ints gls lvl])%list
       /\ Store.progress (fst (Store.add_user c n ints gls lvl))
          = Store.progress c.
Proof.
  unfold register_form.
  destruct (_ && _); [|now left].
  destruct (existsb (fun r => String.eqb (Store.username r) n)
                    (Store.users c)) eqn:E.
  - left. unfold Store.add_user, Store.insert_user. now rewrite E.
  - right. rewrite (add_user_free _ _ ints gls lvl E). simpl. eauto.
Qed.

(** What a visit of the Profile page keeps. *)
Lemma profile_page_keeps (df : list course) (conn : Store.conn)
      (ss : session_state) (username : string)
      (submitted : option new_user_form) :
  session_ok conn ss -> progress_of_users conn ->
  session_ok (fst (profile_page conn ss username submitted))
             (snd (profile_page conn ss username submitted))
  /\ progress_of_users (fst (profile_page conn ss username submitted))
  /\ Store.progress (fst (profile_page conn ss username submitted))
     = Store.progress conn.
Proof.
  intros Hs Hp. unfold profile_page.
  destruct (negb (Py.falsy username)); [|auto].
  destruct (Store.get_user conn username) as [r|] eqn:Eg.
  - simpl. split; [|auto]. unfold session_ok. simpl.
    exists (Store.username r), (Store.interests r), (Store.goals r),
           (Store.skill_level r).
    split; [reflexivity|].
    destruct r. simpl. exact (proj1 (find_some _ _ Eg)).
  - destruct submitted as [f|]; [|auto].
    destruct (register_form_cases conn (new_username f) (new_interests f)
                (new_goals f) (new_skill_level f))
      as [->|[uid [-> [Eu Ep]]]]; [auto|].
    destruct (uid =? 0); simpl.
    + split; [now apply (session_ok_grows conn _ ss _ Eu)|].
      split; [now apply (progress_of_users_grows conn _ _ Eu Ep)|exact Ep].
    + split; [|split; [now apply (progress_of_users_grows conn _ _ Eu Ep)
                      |exact Ep]].
      unfold session_ok. simpl.
      exists (new_username f), (new_interests f), (new_goals f),
             (new_skill_level f).
      split; [reflexivity|]. rewrite Eu. apply in_or_app. right. now left.
Qed.

Lemma step_keeps (df : list course) (st : Store.conn * session_state)
      (v : visit) :
  visit_ok df v ->
  session_ok (fst st) (snd st) -> progress_of_users (fst st) ->
  progress_of_catalog df (fst st) ->
  Forall Store.completion_valid (Store.progress (fst st)) ->
  session_ok (fst (step st v)) (snd (step st v))
  /\ progress_of_users (fst (step st v))
  /\ progress_of_catalog df (fst (step st v))
  /\ Forall Store.completion_valid (Store.progress (fst (step st v))).
Proof.
  destruct st as [conn ss]. cbn [fst snd].
  intros Hv Hs Hp Hc Hq.
  destruct v as [username submitted|k p b]; cbn [step fst snd].
  - destruct (profile_page_keeps df conn ss username submitted Hs Hp)
      as [Hs' [Hp' Ep]].
    split; [exact Hs'|]. split; [exact Hp'|].
    unfold progress_of_catalog. rewrite Ep. auto.
  - destruct Hv as [Hk Hrange].
    unfold progress_page.
    destruct (current_user_id ss) as [uid|] eqn:Eu; [|auto].
    destruct (uid =? 0); [auto|].
    destruct (String.eqb_spec k "Select a Course") as [->|Hne];
      cbn [negb]; [auto|].
    destruct b; [|auto].
    split; [|split; [|split]].
    + now apply (session_ok_grows conn _ ss []); [rewrite app_nil_r|].
    + unfold progress_of_users. rewrite update_progress_appends.
      apply Forall_app. split; [exact Hp|].
      constructor; [|constructor]. simpl.
      unfold session_ok in Hs. rewrite Eu in Hs.
      destruct Hs as [name [ints [gls [lvl [_ Hin]]]]].
      eexists. split; [exact Hin|reflexivity].
    + unfold progress_of_catalog. rewrite update_progress_appends.
      apply Forall_app. split; [exact Hc|].
      constructor; [|constructor]. simpl.
      destruct Hk as [Hk|Hk]; [congruence|exact Hk].
    + apply update_progress_valid; [exact Hq|].
      now apply percentage_fraction_valid.
Qed.

(** Through the pages the store stays consistent: from a state in which
    the session names a stored profile, every progress record is of a
    stored user and of a course of the catalog, and every completion value
    lies in [0,1], any sequence of Profile and Progress visits (with the
    course taken from the selectbox and the percentage from the slider)
    leads to a state with the same four properties. *)
Theorem pages_keep_store_consistent
        (df : list course) (vs : list visit)
        (st : Store.conn * session_state)
        (Hvisits : Forall (visit_ok df) vs)
        (Hsession : session_ok (fst st) (snd st))
        (Husers : progress_of_users (fst st))
        (Hcatalog : progress_of_catalog df (fst st))
        (Hvalid : Forall Store.completion_valid (Store.progress (fst st))) :
  session_ok (fst (run st vs)) (snd (run st vs))
  /\ progress_of_users (fst (run st vs))
  /\ progress_of_catalog df (fst (run st vs))
  /\ Forall Store.completion_valid (Store.progress (fst (run st vs))).
Proof.
  revert st Hsession Husers Hcatalog Hvalid.
  induction Hvisits as [|v vs Hv _ IH]; intros st Hs Hp Hc Hq; simpl.
  - auto.
  - destruct (step_keeps df st v Hv Hs Hp Hc Hq) as [Hs' [Hp' [Hc' Hq']]].
    now apply IH.
Qed.

Lemma pages_keep_store_consistent_witness :
  session_ok
    (fst (run (Store.empty_db, no_session)
              [Profile "ada" (Some (mk_form "ada" "ml" "a job" "Beginner"));
               Progress "C1" 40 true;
               Profile "ada" None;
               Progress "C2" 100 true]))
    (snd (run (Store.empty_db, no_session)
              [Profile "ada" (Some (mk_form "ada" "ml" "a job" "Beginner"));
               Progress "C1" 40 true;
               Profile "ada" None;
               Progress "C2" 100 true]))
  /\ progress_of_users
       (fst (run (Store.empty_db, no_session)
                 [Profile "ada" (Some (mk_form "ada" "ml" "a job" "Beginner"));
                  Progress "C1" 40 true;
                  Profile "ada" None;
                  Progress "C2" 100 true]))
  /\ progress_of_catalog Fixture.two_courses
       (fst (run (Store.empty_db, no_session)
                 [Profile "ada" (Some (mk_form "ada" "ml" "a job" "Beginner"));
                  Progress "C1" 40 true;
                  Profile "ada" None;
                  Progress "C2" 100 true]))
  /\ Forall Store.completion_valid
       (Store.progress
          (fst (run (Store.empty_db, no_session)
                    [Profile "ada"
                             (Some (mk_form "ada" "ml" "a job" "Beginner"));
                     Progress "C1" 40 true;
                     Profile "ada" None;
                     Progress "C2" 100 true]))).
Proof.
  apply (pages_keep_store_consistent Fixture.two_courses).
  - repeat constructor; simpl; unfold slider_range; auto; lia.
  - exact I.
  - constructor.
  - constructor.
  - constructor.
Defined.

End SessionProps.

Section RegistrationProps.
Import Catalog App Listing Session.

Lemma register_form_filled (c : Store.conn) (f : new_user_form) :
  Py.falsy (new_username f) = false ->
  Py.falsy (new_interests f) = false ->
  Py.falsy (new_goals f) = false ->
  register_form c (new_username f) (new_interests f) (new_goals f)
                (new_skill_level f)
  = Store.add_user c (new_username f) (new_interests f) (new_goals f)
                   (new_skill_level f).
Proof. intros H1 H2 H3. unfold register_form. now rewrite H1, H2, H3. Qed.

(** Registering and then signing in: when the typed username is unknown,
    the form is filled in and its username is free, the Profile page
    stores the profile and signs the new user in, with an identifier of at
    least 1; entering the registered username on a later visit gives the
    same session again and leaves the store as it is; and submitting a
    form with that username once more changes neither store nor
    session. *)
Theorem register_then_sign_in
        (conn : Store.conn) (ss : session_state) (username : string)
        (f : new_user_form)
        (Hname : Py.falsy username = false)
        (Hunknown : Store.get_user conn username = None)
        (Hfree : Store.get_user conn (new_username f) = None)
        (Hu : Py.falsy (new_username f) = false)
        (Hi : Py.falsy (new_interests f) = false)
        (Hg : Py.falsy (new_goals f) = false) :
  exists uid conn',
    0 < uid
    /\ profile_page conn ss username (Some f)
       = (conn', signed_in uid (new_username f) (new_interests f)
                           (new_goals f) (new_skill_level f))
    /\ Store.users conn'
       = (Store.users conn
          ++ [Store.mk_user uid (new_username f) (new_interests f)
                            (new_goals f) (new_skill_level f)])%list
    /\ (forall ss',
          profile_page conn' ss' (new_username f) None
          = (conn', signed_in uid (new_username f) (new_interests f)
                              (new_goals f) (new_skill_level f)))
    /\ (forall ss' name f',
          Py.falsy name = false ->
          Store.get_user conn' name = None ->
          new_username f' = new_username f ->
          profile_page conn' ss' name (Some f') = (conn', ss')).
Proof.
  pose proof (get_user_none_free _ _ Hfree) as E.
  destruct (next_rowid_above (Store.users_seq conn)
                             (map Store.user_id (Store.users conn)))
    as [Hpos _].
  set (uid := Store.next_rowid (Store.users_seq conn)
                               (map Store.user_id (Store.users conn))) in *.
  set (conn' := fst (Store.add_user conn (new_username f) (new_interests f)
                                    (new_goals f) (new_skill_level f))).
  assert (Eadd : Store.add_user conn (new_username f) (new_interests f)
                                (new_goals f) (new_skill_level f)
                 = (conn', Some uid)).
  { subst conn'. now rewrite (add_user_free _ _ _ _ _ E). }
  assert (Eusers : Store.users conn'
                   = (Store.users conn
                      ++ [Store.mk_user uid (new_username f) (new_interests f)
                                        (new_goals f) (new_skill_level f)])%list).
  { subst conn'. now rewrite (add_user_free _ _ _ _ _ E). }
  assert (Hrow : Store.get_user conn' (new_username f)
                 = Some (Store.mk_user uid (new_username f) (new_interests f)
                                       (new_goals f) (new_skill_level f)))
    by exact (add_user_registers _ _ _ _ _ _ _ Eadd).
  exists uid, conn'. split; [exact Hpos|]. split; [|split; [exact Eusers|split]].
  - unfold profile_page. rewrite Hname, Hunknown. cbn [negb].
    rewrite (register_form_filled conn f Hu Hi Hg), Eadd.
    destruct (Z.eqb_spec uid 0); [lia|reflexivity].
  - intros ss'. unfold profile_page. rewrite Hu, Hrow. reflexivity.
  - intros ss' name f' Hn Hnone Hsame. unfold profile_page.
    rewrite Hn, Hnone. cbn [negb].
    unfold register_form.
    destruct (_ && _); [|reflexivity].
    rewrite Hsame.
    now rewrite (add_user_taken conn' (new_username f) _ _ _ _ Hrow).
Qed.

Lemma register_then_sign_in_witness :
  exists uid conn',
    0 < uid
    /\ profile_page Store.empty_db no_session "ada"
                    (Some (mk_form "ada" "ml" "a job" "Beginner"))
       = (conn', signed_in uid "ada" "ml" "a job" "Beginner")
    /\ Store.users conn'
       = (Store.users Store.empty_db
          ++ [Store.mk_user uid "ada" "ml" "a job" "Beginner"])%list
    /\ (forall ss',
          profile_page conn' ss' "ada" None
          = (conn', signed_in uid "ada" "ml" "a job" "Beginner"))
    /\ (forall ss' name f',
          Py.falsy name = false ->
          Store.get_user conn' name = None ->
          new_username f' = "ada" ->
          profile_page conn' ss' name (Some f') = (conn', ss')).
Proof.
  apply (register_then_sign_in Store.empty_db no_session "ada"
           (mk_form "ada" "ml" "a job" "Beginner")); reflexivity.
Defined.

End RegistrationProps.

Section CourseOptionsProps.
Import Catalog App Listing Session.

Lemma loaded_course_id (f : file) (df : list course) (c : course) :
  load_course_data f = Some df -> In c df ->
  exists s, course_id (named (row c)) = Some s.
Proof.
  intros Hload Hc. pose proof (loaded_rows_complete f df Hload) as H.
  rewrite Forall_forall in H. specialize (H c Hc).
  unfold subset_cells in H. simpl in H.
  destruct (course_id (named (row c))) as [s|]; [eauto|].
  simpl in H. discriminate.
Qed.

(** The course selectbox of the Progress page on a loaded catalog: after
    the placeholder it lists each course identifier once, also when
    several courses share it (the load removes no duplicates), and the
    identifier of every course is listed; so an update can be recorded for
    every course of the catalog and for nothing else. *)
Theorem course_id_options_listing (f : file) (df : list course)
        (Hload : load_course_data f = Some df) :
  exists ids,
    course_id_options df = "Select a Course" :: ids
    /\ NoDup ids
    /\ (forall c, In c df ->
          exists s, course_id (named (row c)) = Some s /\ In s ids)
    /\ (forall s, In s ids ->
          exists c, In c df /\ course_id (named (row c)) = Some s).
Proof.
  exists (unique (column_texts course_id df)).
  split; [reflexivity|]. split; [apply unique_NoDup|]. split.
  - intros c Hc. destruct (loaded_course_id f df c Hload Hc) as [s Hs].
    exists s. split; [exact Hs|]. apply unique_In, column_texts_In. eauto.
  - intros s Hs. now apply column_texts_In, unique_In.
Qed.

Lemma course_id_options_listing_witness :
  exists ids,
    course_id_options
      (Fixture.loaded (Table [Fixture.intro_ml; Fixture.finance_101;
                              Fixture.intro_ml]))
    = "Select a Course" :: ids
    /\ NoDup ids
    /\ (forall c,
          In c (Fixture.loaded (Table [Fixture.intro_ml; Fixture.finance_101;
                                       Fixture.intro_ml])) ->
          exists s, course_id (named (row c)) = Some s /\ In s ids)
    /\ (forall s, In s ids ->
          exists c,
            In c (Fixture.loaded (Table [Fixture.intro_ml;
                                         Fixture.finance_101;
                                         Fixture.intro_ml]))
            /\ course_id (named (row c)) = Some s).
Proof.
  apply (course_id_options_listing
           (Table [Fixture.intro_ml; Fixture.finance_101; Fixture.intro_ml])).
  reflexivity.
Defined.

Example course_id_options_shared_id :
  course_id_options
    (Fixture.loaded (Table [Fixture.intro_ml; Fixture.finance_101;
                            Fixture.intro_ml]))
  = ["Select a Course"; "C1"; "C2"].
Proof. reflexivity. Qed.

Example categories_two_courses :
  categories Fixture.two_courses = ["All"; "Data Science"; "Finance"].
Proof. reflexivity. Qed.

End CourseOptionsProps.
